(** * OWL-ViT detection module (scenic/projects/owl_vit/models.py)

    A shallow embedding of [TextZeroShotDetectionModule]: the checkpoint
    loaders ([load_variables], [load]), the prediction heads' wiring
    ([class_predictor], [box_predictor]) and the forward pass ([__call__]).

    Python dictionaries are finite maps with string keys, arrays are a shape
    together with row-major data, exceptions are an explicit error type. *)

From stdpp Require Import gmap strings list fin_maps.
From Stdlib Require Import ZArith Floats.SpecFloat.

(** ** Exceptions and fallible computations *)

Inductive exn : Type :=
  | KeyError (key : string)
  | IndexError
  | AttributeError (attr : string)
  | ValueError
  | InvalidArgument.

Inductive result (A : Type) : Type :=
  | Ok (a : A)
  | Raise (e : exn).
Arguments Ok {A} a.
Arguments Raise {A} e.

#[global] Instance result_ret : MRet result := fun _ a => Ok a.
#[global] Instance result_bind : MBind result := fun _ _ f m =>
  match m with
  | Ok a => f a
  | Raise e => Raise e
  end.

(** One step of a computation: the bind of a value that is known. *)
Ltac step := cbn [mbind result_bind].

Definition raises {A} (m : result A) : Prop := exists e, m = Raise e.
Definition returns {A} (m : result A) : Prop := exists a, m = Ok a.

(** ** Arrays *)

Module Np.

Record ndarray (A : Type) : Type := mk_ndarray {
  shape : list nat;
  data : list A
}.
Arguments mk_ndarray {A} shape data.
Arguments shape {A} _.
Arguments data {A} _.

(** Number of elements of an array of a given shape. *)
Definition numel (sh : list nat) : nat := foldr Nat.mul 1 sh.

Definition wf {A} (a : ndarray A) : Prop :=
  length (data a) = numel (shape a).

(** binary32 values, as sign / mantissa / exponent. *)
Definition float32 : Type := spec_float.
Definition f32_zero : float32 := S754_zero false.
Definition f32_one : float32 := S754_finite false 8388608 (-23).

(** Take one element every [l], [n] times: the elements at index 0 of the
    last axis of an array whose last axis has length [l]. *)
Fixpoint strided {A} (n l : nat) (d : list A) : list A :=
  match n with
  | O => []
  | S n' =>
      match d with
      | [] => []
      | x :: _ => x :: strided n' l (drop l d)
      end
  end.

(** [a[..., 0]] *)
Definition getitem_ellipsis_0 {A} (a : ndarray A) : result (ndarray A) :=
  match rev (shape a) with
  | [] => Raise IndexError
  | l :: rpre =>
      if decide (l = 0) then Raise IndexError
      else Ok (mk_ndarray (rev rpre) (strided (numel (rev rpre)) l (data a)))
  end.

(** [a > 0] on an integer array. *)
Definition gt0 (a : ndarray Z) : ndarray bool :=
  mk_ndarray (shape a) (map (fun t => bool_decide (0 < t)%Z) (data a)).

(** [a.astype(jnp.float32)] on a boolean array. *)
Definition astype_float32 (a : ndarray bool) : ndarray float32 :=
  mk_ndarray (shape a)
    (map (fun b : bool => if b then f32_one else f32_zero) (data a)).

(** [jnp.reshape(a, sh)] *)
Definition reshape {A} (a : ndarray A) (sh : list nat) : result (ndarray A) :=
  if decide (numel sh = length (data a)) then Ok (mk_ndarray sh (data a))
  else Raise ValueError.

(** Element-wise application of a scalar function. *)
Definition elementwise {A B} (f : A -> B) (a : ndarray A) : ndarray B :=
  mk_ndarray (shape a) (map f (data a)).

Definition zeros (sh : list nat) : ndarray float32 :=
  mk_ndarray sh (replicate (numel sh) f32_zero).

(** *** Broadcasting binary operations *)

(** The broadcast of two shapes, both given last axis first: axes are
    paired from the last one, and paired axes agree or one of them is 1. *)
Fixpoint broadcast_rev (r1 r2 : list nat) : option (list nat) :=
  match r1, r2 with
  | [], r => Some r
  | r, [] => Some r
  | a :: r1', b :: r2' =>
      d ← (if decide (a = b) then Some a
           else if decide (a = 1) then Some b
           else if decide (b = 1) then Some a
           else None);
      r ← broadcast_rev r1' r2';
      Some (d :: r)
  end.

Definition broadcast_shapes (s1 s2 : list nat) : option (list nat) :=
  (fun r => rev r) <$> broadcast_rev (rev s1) (rev s2).

(** [small] broadcasts onto [big] without changing the shape [big]. *)
Definition broadcastable_onto (small big : list nat) : Prop :=
  broadcast_shapes big small = Some big.

(** The index along each axis (last axis first) of flat position [k]. *)
Fixpoint unravel_rev (rsh : list nat) (k : nat) : list nat :=
  match rsh with
  | [] => []
  | d :: r => (k mod d) :: unravel_rev r (k / d)
  end.

(** The flat position in an operand of shape [rsh] (last axis first) of an
    index of the result: an axis of length 1 is read at 0, and the leading
    axes the operand lacks are dropped. *)
Fixpoint ravel_rev (rsh ridx : list nat) : nat :=
  match rsh, ridx with
  | d :: r, i :: ri => (if decide (d = 1) then 0 else i) + d * ravel_rev r ri
  | _, _ => 0
  end.

Definition broadcast_map2 {A B C} (f : A -> B -> C)
    (x : ndarray A) (y : ndarray B) : result (ndarray C) :=
  match broadcast_shapes (shape x) (shape y) with
  | None => Raise ValueError
  | Some sh =>
      match mapM (fun k =>
                    let ridx := unravel_rev (rev sh) k in
                    a ← data x !! ravel_rev (rev (shape x)) ridx;
                    b ← data y !! ravel_rev (rev (shape y)) ridx;
                    Some (f a b)) (seq 0 (numel sh)) with
      | Some d => Ok (mk_ndarray sh d)
      | None => Raise ValueError
      end
  end.

(** binary32 addition, round to nearest even. *)
Definition f32_add : float32 -> float32 -> float32 := SFadd 24 128.

(** [x + y] *)
Definition add (x y : ndarray float32) : result (ndarray float32) :=
  broadcast_map2 f32_add x y.

End Np.

Abbreviation tensor := (Np.ndarray Np.float32).
Abbreviation itensor := (Np.ndarray Z).

(** ** Parameter trees *)

(** A nested dictionary whose leaves are arrays (a restored state dict). *)
#[warnings="-register-all"]
Inductive pytree : Type :=
  | PArr (a : tensor)
  | PDict (m : gmap string pytree).

Module Py.

(** [d[k]] on a dictionary. *)
Definition dict_getitem {V} (d : gmap string V) (k : string) : result V :=
  match d !! k with
  | Some v => Ok v
  | None => Raise (KeyError k)
  end.

(** [k in d] *)
Definition contains {V} (k : string) (d : gmap string V) : bool :=
  bool_decide (is_Some (d !! k)).

(** [v[k]] on a tree node; an array leaf cannot be indexed by a string. *)
Definition getitem (v : pytree) (k : string) : result pytree :=
  match v with
  | PDict m => dict_getitem m k
  | PArr _ => Raise IndexError
  end.

(** [v[k] = x] *)
Definition setitem (v : pytree) (k : string) (x : pytree) : result pytree :=
  match v with
  | PDict m => Ok (PDict (<[k := x]> m))
  | PArr _ => Raise IndexError
  end.

(** [v.pop(k, None)]: the dictionary after the call. *)
Definition pop_default (v : pytree) (k : string) : result pytree :=
  match v with
  | PDict m => Ok (PDict (delete k m))
  | PArr _ => Raise (AttributeError "pop")
  end.

(** [params[sub].pop(k, None)]: the nested dictionary is changed in place,
    so [params] sees the change. *)
Definition pop_under (params : pytree) (sub k : string) : result pytree :=
  child ← getitem params sub;
  child' ← pop_default child k;
  setitem params sub child'.

(** [cfg.name] on a ConfigDict. *)
Definition getattr (cfg : gmap string string) (name : string) : result string :=
  match cfg !! name with
  | Some v => Ok v
  | None => Raise (AttributeError name)
  end.

End Py.

(** ** Checkpoint loading *)

Section Loader.

(** [flax.training.checkpoints.restore_checkpoint(path, target=None)]:
    the checkpoint store, a mapping per path. *)
Variable restore_checkpoint : string -> gmap string pytree.

(** [self._embedder.load_backbone(params, checkpoint_path)] *)
Variable load_backbone : pytree -> option string -> result pytree.

Definition load_variables (checkpoint_path : string)
  : result (gmap string pytree) :=
  let restored := restore_checkpoint checkpoint_path in
  if Py.contains "params" restored then
    p ← Py.dict_getitem restored "params";
    Ok {[ "params" := p ]}
  else
    o ← Py.dict_getitem restored "optimizer";
    t ← Py.getitem o "target";
    Ok {[ "params" := t ]}.

Definition load (params : pytree) (init_config : gmap string string)
  : result pytree :=
  if decide (init_config !! "codebase" = Some "clip") then
    backbone ← Py.getitem params "backbone";
    backbone' ← load_backbone backbone (init_config !! "checkpoint_path");
    Py.setitem params "backbone" backbone'
  else
    checkpoint_path ← Py.getattr init_config "checkpoint_path";
    let restored_train_state := restore_checkpoint checkpoint_path in
    params ←
      (if Py.contains "optimizer" restored_train_state then
         o ← Py.dict_getitem restored_train_state "optimizer";
         Py.getitem o "target"
       else
         Py.dict_getitem restored_train_state "params");
    params ← Py.pop_under params "class_head" "padding";
    params ← Py.pop_under params "class_head" "padding_bias";
    Ok params.

End Loader.

(** The content of [optimizer.target] in a restored mapping, when the
    [optimizer] key exists and holds a dictionary with a [target] key. *)
Definition optimizer_target (restored : gmap string pytree) : option pytree :=
  match restored !! "optimizer" with
  | Some (PDict o) => o !! "target"
  | _ => None
  end.

(** The stale-key cleanup in the spec's words: drop the keys "padding" and
    "padding_bias" under the class-head subtree. *)
Definition strip_stale (content : pytree) : result pytree :=
  match content with
  | PArr _ => Raise IndexError
  | PDict m =>
      match m !! "class_head" with
      | None => Raise (KeyError "class_head")
      | Some (PArr _) => Raise (AttributeError "pop")
      | Some (PDict ch) =>
          Ok (PDict (<["class_head" :=
                        PDict (delete "padding_bias" (delete "padding" ch))]> m))
      end
  end.

(** What the default mode of [load] takes out of the restored state: the
    content of "optimizer"."target" when "optimizer" is a key, the content of
    "params" otherwise (lines 189 to 193). *)
Definition checkpoint_content (restored_train_state : gmap string pytree)
  : result pytree :=
  if Py.contains "optimizer" restored_train_state then
    o ← Py.dict_getitem restored_train_state "optimizer";
    Py.getitem o "target"
  else
    Py.dict_getitem restored_train_state "params".

(** ** The detection module *)

Section Detection.

(** Attribute [box_bias] of the module. *)
Variable box_bias : string.

(** [self._embedder(images=images, train=train)[0]] and
    [self._embedder(texts=texts, train=train)[1]]: the backbone, called
    with images only or with texts only. *)
Variable embed_images : tensor -> bool -> result tensor.
Variable embed_texts : itensor -> bool -> result tensor.

(** [utils.seq2img] and [utils.compute_box_bias]. *)
Variable seq2img : tensor -> tensor -> result tensor.
Variable compute_box_bias : tensor -> string -> result tensor.

(** The box head [layers.PredictorMLP], applied to its bound parameters. *)
Variable _box_head : tensor -> result tensor.

(** [nn.sigmoid] on one binary32 value. *)
Variable sigmoid : Np.float32 -> Np.float32.

(** The numeric parts of the class head: the projection of the image
    features to class embeddings, and the masked similarity logits of
    class embeddings, query embeddings and query mask. *)
Variable project : tensor -> result tensor.
Variable masked_similarity : tensor -> tensor -> tensor -> result tensor.

(** Modelled from the spec: [layers.ClassPredictor.__call__] is not under
    src/. Per section 4.2, query embeddings and query mask are required
    together, and giving one without the other fails with InvalidArgument;
    without query embeddings only [class_embeddings] is returned, with them
    [class_embeddings] and [pred_logits]. *)
Definition ClassPredictor (image_features : tensor)
    (query_embeddings query_mask : option tensor)
  : result (gmap string tensor) :=
  match query_embeddings, query_mask with
  | Some _, None | None, Some _ => Raise InvalidArgument
  | None, None =>
      class_embeddings ← project image_features;
      Ok {[ "class_embeddings" := class_embeddings ]}
  | Some q, Some m =>
      class_embeddings ← project image_features;
      pred_logits ← masked_similarity class_embeddings q m;
      Ok {[ "class_embeddings" := class_embeddings;
            "pred_logits" := pred_logits ]}
  end.

Definition _class_head := ClassPredictor.

Definition box_predictor (image_features feature_map : tensor)
  : result (gmap string tensor) :=
  pred_boxes ← _box_head image_features;
  bias ← compute_box_bias feature_map box_bias;
  pred_boxes ← Np.add pred_boxes bias;
  let pred_boxes := Np.elementwise sigmoid pred_boxes in
  Ok {[ "pred_boxes" := pred_boxes ]}.

Definition class_predictor (image_features : tensor)
    (query_embeddings query_mask : option tensor)
  : result (gmap string tensor) :=
  _class_head image_features query_embeddings query_mask.

Definition image_embedder (images : tensor) (train : bool) : result tensor :=
  image_features ← embed_images images train;
  seq2img images image_features.

Definition text_embedder (text_queries : itensor) (train : bool)
  : result tensor :=
  embed_texts text_queries train.

(** [(text_queries[..., 0] > 0).astype(jnp.float32)] *)
Definition query_mask (text_queries : itensor) : result tensor :=
  first ← Np.getitem_ellipsis_0 text_queries;
  Ok (Np.astype_float32 (Np.gt0 first)).

Definition __call__ (inputs : tensor) (text_queries : itensor) (train : bool)
  : result (gmap string tensor) :=
  feature_map ← image_embedder inputs train;
  match Np.shape feature_map with
  | [b; h; w; d] =>
      image_features ← Np.reshape feature_map [b; h * w; d];
      query_embeddings ← text_embedder text_queries train;
      query_mask ← query_mask text_queries;
      let outputs : gmap string tensor :=
        {[ "feature_map" := feature_map;
           "query_embeddings" := query_embeddings ]} in
      classes ← class_predictor image_features
                  (Some query_embeddings) (Some query_mask);
      let outputs := classes ∪ outputs in
      boxes ← box_predictor image_features feature_map;
      let outputs := boxes ∪ outputs in
      Ok outputs
  | _ => Raise ValueError
  end.

(** A valid input batch: text queries [b, q, l], a feature map
    [b, h, w, d] from the image embedder, query embeddings [b, q, d'] from
    the text embedder, and heads that return on them. *)
Definition valid_batch (inputs : tensor) (text_queries : itensor)
    (train : bool) (b h w q : nat) : Prop :=
  exists (fm qe mask : tensor) (l d d' : nat),
    Np.shape text_queries = [b; q; l] /\
    image_embedder inputs train = Ok fm /\
    Np.shape fm = [b; h; w; d] /\ Np.wf fm /\
    text_embedder text_queries train = Ok qe /\
    Np.shape qe = [b; q; d'] /\
    query_mask text_queries = Ok mask /\
    returns (class_predictor
               (Np.mk_ndarray [b; h * w; d] (Np.data fm))
               (Some qe) (Some mask)) /\
    returns (box_predictor
               (Np.mk_ndarray [b; h * w; d] (Np.data fm)) fm).

End Detection.

(** Modelled from the spec: the shapes produced by the components that are
    not under src/ ([layers.ClassPredictor], [layers.PredictorMLP] and
    [utils.compute_box_bias]). Per sections 4.1 to 4.3: class embeddings keep
    the leading shape [b, p] of the image features, the logits of [b, p, d']
    class embeddings and [b, q, d'] query embeddings are [b, p, q], the box
    head maps each patch to 4 coordinates, and the box bias of a [b, h, w, d]
    feature map broadcasts onto [b, h*w, 4]. *)
Definition spec_shapes
    (project : tensor -> result tensor)
    (masked_similarity : tensor -> tensor -> tensor -> result tensor)
    (_box_head : tensor -> result tensor)
    (compute_box_bias : tensor -> string -> result tensor) : Prop :=
  (forall x ce b p d, project x = Ok ce -> Np.shape x = [b; p; d] ->
     exists d', Np.shape ce = [b; p; d']) /\
  (forall ce qe m lg b p q d1 d2, masked_similarity ce qe m = Ok lg ->
     Np.shape ce = [b; p; d1] -> Np.shape qe = [b; q; d2] ->
     Np.shape lg = [b; p; q]) /\
  (forall x y b p d, _box_head x = Ok y -> Np.shape x = [b; p; d] ->
     Np.shape y = [b; p; 4]) /\
  (forall fm kind bias b h w d, compute_box_bias fm kind = Ok bias ->
     Np.shape fm = [b; h; w; d] ->
     Np.broadcastable_onto (Np.shape bias) [b; h * w; 4]).

(** ** Concrete checkpoints and components

    Small instances on which the definitions above are run. *)

Module Sample.

Definition leaf0 : pytree := PArr (Np.zeros [2]).
Definition leaf1 : pytree := PArr (Np.mk_ndarray [1] [Np.f32_one]).

(** A parameter tree that still has the stale key "padding". *)
Definition content_stale : pytree :=
  PDict {[ "class_head" := PDict {[ "padding" := leaf0 ]} ]}.

Definition content_a : pytree :=
  PDict {[ "class_head" := PDict {[ "logit_scale" := leaf0 ]} ]}.
Definition content_b : pytree :=
  PDict {[ "class_head" := PDict {[ "logit_scale" := leaf1 ]} ]}.

(** Checkpoints of the two lineages, one with both keys, one with none. *)
Definition ckpt_params : gmap string pytree :=
  {[ "params" := content_stale ]}.
Definition ckpt_optimizer : gmap string pytree :=
  {[ "optimizer" := PDict {[ "target" := content_stale ]} ]}.
Definition ckpt_both : gmap string pytree :=
  {[ "params" := content_a;
     "optimizer" := PDict {[ "target" := content_b ]} ]}.
Definition ckpt_neither : gmap string pytree :=
  {[ "step" := leaf0 ]}.

(** A store that holds one checkpoint, whatever the path. *)
Definition store (ckpt : gmap string pytree) : string -> gmap string pytree :=
  fun _ => ckpt.

Definition backbone_loader : pytree -> option string -> result pytree :=
  fun _ _ => Ok leaf1.

Definition scenic_config : gmap string string :=
  {[ "checkpoint_path" := "/ckpt" ]}.
Definition clip_config : gmap string string :=
  {[ "codebase" := "clip"; "checkpoint_path" := "/clip" ]}.

Definition model_params : pytree :=
  PDict {[ "backbone" := leaf0;
           "class_head" := PDict {[ "padding" := leaf0 ]};
           "obj_box_head" := leaf0 ]}.

(** Components of a small detection module: an embedder with one patch
    per pixel, heads that return zeros of the documented shapes. *)
Definition embed_images : tensor -> bool -> result tensor :=
  fun images _ => Ok images.
Definition seq2img : tensor -> tensor -> result tensor :=
  fun _ image_features => Ok image_features.
Definition embed_texts : itensor -> bool -> result tensor :=
  fun texts _ => Ok (Np.zeros (Np.shape texts)).
Definition project : tensor -> result tensor :=
  fun x => Ok x.
Definition masked_similarity : tensor -> tensor -> tensor -> result tensor :=
  fun ce qe _ =>
    match Np.shape ce, Np.shape qe with
    | [b; p; _], [_; q; _] => Ok (Np.zeros [b; p; q])
    | _, _ => Raise ValueError
    end.
Definition box_head : tensor -> result tensor :=
  fun x =>
    match Np.shape x with
    | [b; p; _] => Ok (Np.zeros [b; p; 4])
    | _ => Raise ValueError
    end.
Definition compute_box_bias : tensor -> string -> result tensor :=
  fun fm _ =>
    match Np.shape fm with
    | [_; h; w; _] => Ok (Np.zeros [h * w; 4])
    | _ => Raise ValueError
    end.
(** One half, the value of the logistic function at zero. *)
Definition sigmoid : Np.float32 -> Np.float32 :=
  fun _ => S754_finite false 8388608 (-24).

Definition images : tensor := Np.zeros [1; 2; 2; 3].

(** Two queries of two tokens: the first starts with 5, the second is
    padding (it starts with 0). *)
Definition queries : itensor := Np.mk_ndarray [1; 2; 2] [5; 0; 0; 7]%Z.

(** One query whose first token is negative. *)
Definition negative_query : itensor := Np.mk_ndarray [1; 1; 2] [-1; 5]%Z.

(** What the forward pass of the sample module returns on the sample batch:
    the feature map is the image, the query mask is [1, 0], and every box
    coordinate is one half. *)
Definition features : tensor := Np.mk_ndarray [1; 2 * 2; 3] (Np.data images).
Definition mask : tensor := Np.mk_ndarray [1; 2] [Np.f32_one; Np.f32_zero].
Definition classes : gmap string tensor :=
  {[ "class_embeddings" := features; "pred_logits" := Np.zeros [1; 4; 2] ]}.
Definition boxes : gmap string tensor :=
  {[ "pred_boxes" :=
       Np.mk_ndarray [1; 4; 4] (replicate 16 (S754_finite false 8388608 (-24))) ]}.
Definition outputs : gmap string tensor :=
  boxes ∪ (classes ∪
    {[ "feature_map" := images; "query_embeddings" := Np.zeros [1; 2; 2] ]}).

(** A parameter tree with no stale key, and checkpoints around it. *)
Definition content_clean : pytree :=
  PDict {[ "backbone" := leaf0;
           "class_head" := PDict {[ "logit_scale" := leaf1 ]} ]}.
Definition ckpt_clean : gmap string pytree :=
  {[ "params" := content_clean ]}.

(** A checkpoint whose "optimizer" entry has no "target". *)
Definition ckpt_no_target : gmap string pytree :=
  {[ "params" := content_a; "optimizer" := PDict {[ "state" := leaf0 ]} ]}.

(** Configurations without a checkpoint path. *)
Definition config_no_path : gmap string string := ∅.
Definition clip_config_no_path : gmap string string :=
  {[ "codebase" := "clip" ]}.

(** A feature map that is not [b, h, w, d]. *)
Definition flat_features : tensor := Np.zeros [1; 4; 3].
Definition seq2img_flat : tensor -> tensor -> result tensor :=
  fun _ _ => Ok flat_features.

End Sample.

(** ** Facts on the loaders *)

Section LoaderFacts.

Variable restore_checkpoint : string -> gmap string pytree.
Variable load_backbone : pytree -> option string -> result pytree.

Lemma contains_true {V} k (d : gmap string V) v :
  d !! k = Some v -> Py.contains k d = true.
Proof. intros H. unfold Py.contains. apply bool_decide_eq_true. eauto. Qed.

Lemma contains_false {V} k (d : gmap string V) :
  d !! k = None -> Py.contains k d = false.
Proof.
  intros H. unfold Py.contains. apply bool_decide_eq_false.
  rewrite H. intros [? ?]. discriminate.
Qed.

Lemma optimizer_target_Some restored t :
  optimizer_target restored = Some t ->
  exists o, restored !! "optimizer" = Some (PDict o) /\ o !! "target" = Some t.
Proof.
  unfold optimizer_target. intros H.
  destruct (restored !! "optimizer") as [[a|o]|]; try discriminate. eauto.
Qed.

(** The two in-place pops of [load] amount to the cleanup of the spec. *)
Lemma pop_pop_strip_stale (content : pytree) :
  (params ← Py.pop_under content "class_head" "padding";
   params ← Py.pop_under params "class_head" "padding_bias";
   Ok params) = strip_stale content.
Proof.
  destruct content as [a|m]; [reflexivity|].
  unfold Py.pop_under, strip_stale. simpl. unfold Py.dict_getitem.
  destruct (m !! "class_head") as [[a|ch]|] eqn:E; simpl; try reflexivity.
  unfold Py.dict_getitem. rewrite lookup_insert_eq. simpl.
  by rewrite insert_insert_eq.
Qed.

(** What [load] does in its default mode, by the keys of the checkpoint. *)
Lemma load_default_optimizer params init_config path t :
  init_config !! "codebase" <> Some "clip" ->
  init_config !! "checkpoint_path" = Some path ->
  optimizer_target (restore_checkpoint path) = Some t ->
  load restore_checkpoint load_backbone params init_config = strip_stale t.
Proof.
  intros Hmode Hpath Ht. unfold load.
  destruct (decide _) as [?|_]; [done|].
  unfold Py.getattr. rewrite Hpath. simpl.
  apply optimizer_target_Some in Ht as (o & Ho & Hot).
  rewrite (contains_true _ _ _ Ho). unfold Py.dict_getitem at 1. rewrite Ho.
  simpl. unfold Py.dict_getitem at 1. rewrite Hot. simpl.
  apply pop_pop_strip_stale.
Qed.

Lemma load_default_params params init_config path p :
  init_config !! "codebase" <> Some "clip" ->
  init_config !! "checkpoint_path" = Some path ->
  restore_checkpoint path !! "optimizer" = None ->
  restore_checkpoint path !! "params" = Some p ->
  load restore_checkpoint load_backbone params init_config = strip_stale p.
Proof.
  intros Hmode Hpath Ho Hp. unfold load.
  destruct (decide _) as [?|_]; [done|].
  unfold Py.getattr. rewrite Hpath. simpl.
  rewrite (contains_false _ _ Ho). unfold Py.dict_getitem at 1. rewrite Hp.
  simpl. apply pop_pop_strip_stale.
Qed.

Lemma load_variables_params path p :
  restore_checkpoint path !! "params" = Some p ->
  load_variables restore_checkpoint path = Ok {[ "params" := p ]}.
Proof.
  intros Hp. unfold load_variables. rewrite (contains_true _ _ _ Hp).
  unfold Py.dict_getitem. by rewrite Hp.
Qed.

Lemma load_variables_fallback path :
  restore_checkpoint path !! "params" = None ->
  load_variables restore_checkpoint path =
    (o ← Py.dict_getitem (restore_checkpoint path) "optimizer";
     t ← Py.getitem o "target";
     Ok {[ "params" := t ]}).
Proof.
  intros Hp. unfold load_variables. by rewrite (contains_false _ _ Hp).
Qed.

End LoaderFacts.

(** ** The loaders against the specification *)

Lemma strip_stale_class_head m ch r :
  m !! "class_head" = Some (PDict ch) ->
  strip_stale (PDict m) = Ok r ->
  exists m' ch',
    r = PDict m' /\ m' !! "class_head" = Some (PDict ch') /\
    ch' !! "padding" = None /\ ch' !! "padding_bias" = None /\
    (forall k, k <> "padding" -> k <> "padding_bias" -> ch' !! k = ch !! k) /\
    (forall k, k <> "class_head" -> m' !! k = m !! k).
Proof.
  intros Hch. unfold strip_stale. rewrite Hch. intros [= <-].
  eexists _, _. split; [reflexivity|]. split; [apply lookup_insert_eq|].
  split; [|split; [|split]].
  - rewrite lookup_delete_ne by done. apply lookup_delete_eq.
  - apply lookup_delete_eq.
  - intros k H1 H2. by rewrite !lookup_delete_ne.
  - intros k Hk. by rewrite lookup_insert_ne.
Qed.

(** C3: [load_variables] returns the parameters under the key "params": the
    content of "params" when the restored mapping has that key, otherwise
    the content of "optimizer"."target"; every result is such a wrapper. *)
Theorem load_variables_canonical
    (restore_checkpoint : string -> gmap string pytree)
    (checkpoint_path : string) (restored : gmap string pytree) :
  restore_checkpoint checkpoint_path = restored ->
  (forall p, restored !! "params" = Some p ->
     load_variables restore_checkpoint checkpoint_path
       = Ok {[ "params" := p ]}) /\
  (forall t, restored !! "params" = None ->
     optimizer_target restored = Some t ->
     load_variables restore_checkpoint checkpoint_path
       = Ok {[ "params" := t ]}) /\
  (forall r, load_variables restore_checkpoint checkpoint_path = Ok r ->
     exists p, r = {[ "params" := p ]}).
Proof.
  intros <-. split; [|split].
  - intros p Hp. by apply load_variables_params.
  - intros t Hp Ht. rewrite load_variables_fallback by done.
    apply optimizer_target_Some in Ht as (o & Ho & Hot).
    unfold Py.dict_getitem at 1. rewrite Ho. simpl.
    unfold Py.dict_getitem. by rewrite Hot.
  - intros r. unfold load_variables.
    destruct (Py.contains _ _).
    + destruct (Py.dict_getitem _ _) as [p|e]; simpl; [|discriminate].
      intros [= <-]. eauto.
    + destruct (Py.dict_getitem _ _) as [o|e]; simpl; [|discriminate].
      destruct (Py.getitem o _) as [t|e]; simpl; [|discriminate].
      intros [= <-]. eauto.
Qed.

Lemma load_variables_canonical_witness :
  load_variables (Sample.store Sample.ckpt_optimizer) "/ckpt"
    = Ok {[ "params" := Sample.content_stale ]}.
Proof.
  apply (proj1 (proj2 (load_variables_canonical
                         (Sample.store Sample.ckpt_optimizer) "/ckpt"
                         Sample.ckpt_optimizer eq_refl))).
  - vm_compute. reflexivity.
  - vm_compute. reflexivity.
Defined.

(** C8: a restored mapping with no "params" key and no "optimizer" key
    holding a "target" makes both [load_variables] and the default mode of
    [load] raise. *)
Theorem load_raises_without_params_or_optimizer
    (restore_checkpoint : string -> gmap string pytree)
    (load_backbone : pytree -> option string -> result pytree)
    (checkpoint_path : string) (restored : gmap string pytree) :
  restore_checkpoint checkpoint_path = restored ->
  restored !! "params" = None ->
  optimizer_target restored = None ->
  raises (load_variables restore_checkpoint checkpoint_path) /\
  (forall params init_config,
     init_config !! "codebase" <> Some "clip" ->
     init_config !! "checkpoint_path" = Some checkpoint_path ->
     raises (load restore_checkpoint load_backbone params init_config)).
Proof.
  intros <- Hp Ht. unfold optimizer_target in Ht. split.
  - rewrite load_variables_fallback by done. unfold Py.dict_getitem at 1.
    destruct (restore_checkpoint checkpoint_path !! "optimizer")
      as [[a|o]|]; simpl; try (eexists; reflexivity).
    unfold Py.dict_getitem. rewrite Ht. simpl. eexists; reflexivity.
  - intros params init_config Hmode Hpath. unfold load.
    destruct (decide _) as [?|_]; [done|].
    unfold Py.getattr. rewrite Hpath. simpl.
    destruct (restore_checkpoint checkpoint_path !! "optimizer")
      as [[a|o]|] eqn:Ho.
    + rewrite (contains_true _ _ _ Ho). unfold Py.dict_getitem at 1.
      rewrite Ho. simpl. eexists; reflexivity.
    + rewrite (contains_true _ _ _ Ho). unfold Py.dict_getitem at 1.
      rewrite Ho. simpl. unfold Py.dict_getitem at 1. rewrite Ht. simpl.
      eexists; reflexivity.
    + rewrite (contains_false _ _ Ho). unfold Py.dict_getitem at 1.
      rewrite Hp. simpl. eexists; reflexivity.
Qed.

Lemma load_raises_without_params_or_optimizer_witness :
  raises (load_variables (Sample.store Sample.ckpt_neither) "/ckpt") /\
  raises (load (Sample.store Sample.ckpt_neither) Sample.backbone_loader
            Sample.model_params Sample.scenic_config).
Proof.
  destruct (load_raises_without_params_or_optimizer
              (Sample.store Sample.ckpt_neither) Sample.backbone_loader
              "/ckpt" Sample.ckpt_neither eq_refl) as [H1 H2].
  - vm_compute. reflexivity.
  - vm_compute. reflexivity.
  - split; [exact H1|]. apply H2.
    + vm_compute. discriminate.
    + vm_compute. reflexivity.
Defined.

(** C10: with both "params" and "optimizer"."target" in the restored
    mapping, [load_variables] returns the content of "params" while the
    default mode of [load] takes "optimizer"."target" (then drops the stale
    keys); there is a checkpoint on which the two contents differ. *)
Theorem load_precedence_disagrees
    (restore_checkpoint : string -> gmap string pytree)
    (load_backbone : pytree -> option string -> result pytree)
    (checkpoint_path : string) (restored : gmap string pytree)
    (p t params : pytree) (init_config : gmap string string) :
  restore_checkpoint checkpoint_path = restored ->
  restored !! "params" = Some p ->
  optimizer_target restored = Some t ->
  init_config !! "codebase" <> Some "clip" ->
  init_config !! "checkpoint_path" = Some checkpoint_path ->
  load_variables restore_checkpoint checkpoint_path = Ok {[ "params" := p ]} /\
  load restore_checkpoint load_backbone params init_config = strip_stale t /\
  (exists (ckpt : gmap string pytree) (p' t' : pytree),
     is_Some (ckpt !! "params") /\ is_Some (optimizer_target ckpt) /\
     load_variables (fun _ => ckpt) checkpoint_path = Ok {[ "params" := p' ]} /\
     load (fun _ => ckpt) load_backbone params init_config = Ok t' /\
     p' <> t').
Proof.
  intros Hr Hp Ht Hmode Hpath. split; [|split].
  - apply load_variables_params. by rewrite Hr.
  - eapply load_default_optimizer; eauto. by rewrite Hr.
  - exists Sample.ckpt_both, Sample.content_a, Sample.content_b.
    split; [by eexists|]. split; [by eexists|]. split; [|split].
    + by apply load_variables_params.
    + rewrite (load_default_optimizer _ _ _ _ checkpoint_path Sample.content_b)
        by done.
      vm_compute. reflexivity.
    + intros H.
      apply (f_equal (fun c => match Py.getitem c "class_head" with
                               | Ok h => Py.getitem h "logit_scale"
                               | Raise e => Raise e
                               end)) in H.
      vm_compute in H. discriminate.
Qed.

Lemma load_precedence_disagrees_witness :
  load_variables (Sample.store Sample.ckpt_both) "/ckpt"
    = Ok {[ "params" := Sample.content_a ]} /\
  load (Sample.store Sample.ckpt_both) Sample.backbone_loader
    Sample.model_params Sample.scenic_config = strip_stale Sample.content_b.
Proof.
  destruct (load_precedence_disagrees
              (Sample.store Sample.ckpt_both) Sample.backbone_loader "/ckpt"
              Sample.ckpt_both Sample.content_a Sample.content_b
              Sample.model_params Sample.scenic_config) as (H1 & H2 & _).
  - reflexivity.
  - vm_compute. reflexivity.
  - vm_compute. reflexivity.
  - vm_compute. discriminate.
  - vm_compute. reflexivity.
  - split; [exact H1 | exact H2].
Defined.

(** C2, as amended: in the default mode of [load] the stale keys "padding"
    and "padding_bias" are dropped from the class-head subtree on both
    lineages: with only "optimizer" (holding "target") the result is the
    cleanup of the target's content, with only "params" it is the cleanup of
    that content. *)
Theorem load_default_strips_both_lineages
    (restore_checkpoint : string -> gmap string pytree)
    (load_backbone : pytree -> option string -> result pytree)
    (params : pytree) (init_config : gmap string string)
    (checkpoint_path : string) (restored : gmap string pytree) :
  init_config !! "codebase" <> Some "clip" ->
  init_config !! "checkpoint_path" = Some checkpoint_path ->
  restore_checkpoint checkpoint_path = restored ->
  (forall t, dom restored = {[ "optimizer" ]} ->
     optimizer_target restored = Some t ->
     load restore_checkpoint load_backbone params init_config
       = strip_stale t) /\
  (forall p, dom restored = {[ "params" ]} ->
     restored !! "params" = Some p ->
     load restore_checkpoint load_backbone params init_config
       = strip_stale p).
Proof.
  intros Hmode Hpath <-. split.
  - intros t _ Ht. by eapply load_default_optimizer.
  - intros p Hdom Hp. eapply load_default_params; eauto.
    apply (not_elem_of_dom (D := gset string)). rewrite Hdom.
    intros ?%elem_of_singleton. done.
Qed.

Lemma load_default_strips_both_lineages_witness :
  load (Sample.store Sample.ckpt_params) Sample.backbone_loader
    Sample.model_params Sample.scenic_config
    = strip_stale Sample.content_stale.
Proof.
  apply (proj2 (load_default_strips_both_lineages
                  (Sample.store Sample.ckpt_params) Sample.backbone_loader
                  Sample.model_params Sample.scenic_config "/ckpt"
                  Sample.ckpt_params ltac:(vm_compute; discriminate)
                  ltac:(vm_compute; reflexivity) eq_refl)).
  - unfold Sample.ckpt_params. by rewrite dom_singleton_L.
  - vm_compute. reflexivity.
Defined.

(** C2 as stated fails: a checkpoint with only "params" whose class head
    still has "padding" is not returned unchanged. *)
Lemma load_params_lineage_not_unchanged :
  dom Sample.ckpt_params = {[ "params" ]} /\
  Sample.ckpt_params !! "params" = Some Sample.content_stale /\
  load (Sample.store Sample.ckpt_params) Sample.backbone_loader
    Sample.model_params Sample.scenic_config
    = Ok (PDict {[ "class_head" := PDict ∅ ]}) /\
  load (Sample.store Sample.ckpt_params) Sample.backbone_loader
    Sample.model_params Sample.scenic_config
    <> Ok Sample.content_stale.
Proof.
  split; [unfold Sample.ckpt_params; by rewrite dom_singleton_L|].
  split; [vm_compute; reflexivity|].
  assert (Hload : load (Sample.store Sample.ckpt_params) Sample.backbone_loader
                    Sample.model_params Sample.scenic_config
                  = Ok (PDict {[ "class_head" := PDict ∅ ]})).
  { vm_compute. reflexivity. }
  split; [exact Hload|]. rewrite Hload. intros H.
  apply (f_equal (fun r => c ← r; h ← Py.getitem c "class_head";
                           Py.getitem h "padding")) in H.
  vm_compute in H. discriminate.
Qed.

(** C7: in the backbone-codebase mode ([codebase] is "clip") a result of
    [load] is the supplied mapping with the "backbone" entry replaced by what
    the backbone loader returns; every other entry is as supplied. *)
Theorem load_clip_only_replaces_backbone
    (restore_checkpoint : string -> gmap string pytree)
    (load_backbone : pytree -> option string -> result pytree)
    (params r : pytree) (init_config : gmap string string) :
  init_config !! "codebase" = Some "clip" ->
  load restore_checkpoint load_backbone params init_config = Ok r ->
  exists (m m' : gmap string pytree) (backbone backbone' : pytree),
    params = PDict m /\ r = PDict m' /\
    m !! "backbone" = Some backbone /\
    load_backbone backbone (init_config !! "checkpoint_path") = Ok backbone' /\
    m' !! "backbone" = Some backbone' /\
    (forall k, k <> "backbone" -> m' !! k = m !! k).
Proof.
  intros Hmode. unfold load. destruct (decide _) as [_|?]; [|done].
  destruct params as [a|m]; simpl; [discriminate|].
  unfold Py.dict_getitem.
  destruct (m !! "backbone") as [backbone|] eqn:Hb; simpl; [|discriminate].
  destruct (load_backbone backbone _) as [backbone'|e] eqn:Hl; simpl;
    [|discriminate].
  intros [= <-]. exists m, (<["backbone" := backbone']> m), backbone, backbone'.
  repeat split; try done.
  - apply lookup_insert_eq.
  - intros k Hk. by rewrite lookup_insert_ne.
Qed.

Lemma load_clip_only_replaces_backbone_witness :
  exists (m m' : gmap string pytree) (backbone backbone' : pytree),
    Sample.model_params = PDict m /\
    PDict (<["backbone" := Sample.leaf1]>
             {[ "backbone" := Sample.leaf0;
                "class_head" := PDict {[ "padding" := Sample.leaf0 ]};
                "obj_box_head" := Sample.leaf0 ]}) = PDict m' /\
    m !! "backbone" = Some backbone /\
    Sample.backbone_loader backbone (Sample.clip_config !! "checkpoint_path")
      = Ok backbone' /\
    m' !! "backbone" = Some backbone' /\
    (forall k, k <> "backbone" -> m' !! k = m !! k).
Proof.
  apply (load_clip_only_replaces_backbone
           (Sample.store Sample.ckpt_params) Sample.backbone_loader
           Sample.model_params _ Sample.clip_config).
  - vm_compute. reflexivity.
  - reflexivity.
Defined.

(** ** Arrays: indexing and broadcasting *)

Lemma strided_lookup {A} (n l : nat) (d : list A) (i : nat) :
  i < n -> Np.strided n l d !! i = d !! (i * l).
Proof.
  revert d i. induction n as [|n IH]; intros d i Hi; [lia|].
  destruct d as [|x d]; simpl.
  - by rewrite !lookup_nil.
  - destruct i as [|i]; [reflexivity|]. simpl.
    rewrite IH by lia. rewrite lookup_drop.
    change (x :: d) with ([x] ++ d). reflexivity.
Qed.

Lemma strided_length {A} (n l : nat) (d : list A) :
  length (Np.strided n l d) <= n.
Proof.
  revert d. induction n as [|n IH]; intros d; simpl; [lia|].
  destruct d; simpl; [lia|]. specialize (IH (drop l (a :: d))). lia.
Qed.

Lemma strided_ext {A} (n l : nat) (d d' : list A) :
  (forall i, i < n -> d !! (i * l) = d' !! (i * l)) ->
  Np.strided n l d = Np.strided n l d'.
Proof.
  intros H. apply list_eq. intros i.
  destruct (decide (i < n)) as [Hi|Hi].
  - rewrite !strided_lookup by done. by apply H.
  - rewrite !lookup_ge_None_2; [done| |].
    + pose proof (strided_length n l d'). lia.
    + pose proof (strided_length n l d). lia.
Qed.

Lemma getitem_ellipsis_0_snoc {A} (a : Np.ndarray A) (pre : list nat) (l : nat) :
  Np.shape a = pre ++ [l] -> l <> 0 ->
  Np.getitem_ellipsis_0 a
    = Ok (Np.mk_ndarray pre (Np.strided (Np.numel pre) l (Np.data a))).
Proof.
  intros Hs Hl. unfold Np.getitem_ellipsis_0.
  rewrite Hs, rev_app_distr. simpl.
  destruct (decide (l = 0)); [done|]. by rewrite rev_involutive.
Qed.

Lemma add_shape (x y z : tensor) :
  Np.add x y = Ok z ->
  Np.broadcastable_onto (Np.shape y) (Np.shape x) ->
  Np.shape z = Np.shape x.
Proof.
  unfold Np.add, Np.broadcast_map2, Np.broadcastable_onto. intros H Hb.
  rewrite Hb in H. destruct (mapM _ _); [|discriminate].
  by injection H as <-.
Qed.

(** ** The forward pass against the specification *)

(** C1, as amended: the query mask is decided by the first token of each
    query alone: 1 when it is positive, 0 when it is 0 (and 0 when it is
    negative); two batches of queries with the same first tokens have the
    same mask. *)
Theorem query_mask_first_token
    (text_queries : itensor) (pre : list nat) (l i : nat) (t : Z) :
  Np.shape text_queries = pre ++ [l] -> l <> 0 ->
  i < Np.numel pre ->
  Np.data text_queries !! (i * l) = Some t ->
  exists mask : tensor,
    query_mask text_queries = Ok mask /\ Np.shape mask = pre /\
    (t = 0%Z -> Np.data mask !! i = Some Np.f32_zero) /\
    ((0 < t)%Z -> Np.data mask !! i = Some Np.f32_one) /\
    ((t < 0)%Z -> Np.data mask !! i = Some Np.f32_zero) /\
    (forall other : itensor,
       Np.shape other = Np.shape text_queries ->
       (forall j, j < Np.numel pre ->
          Np.data other !! (j * l) = Np.data text_queries !! (j * l)) ->
       query_mask other = Ok mask).
Proof.
  intros Hs Hl Hi Ht. unfold query_mask.
  rewrite (getitem_ellipsis_0_snoc _ pre l) by done. simpl.
  eexists. split; [reflexivity|]. split; [reflexivity|].
  assert (Hm : forall b : bool, bool_decide (0 < t)%Z = b ->
            Np.data (Np.astype_float32 (Np.gt0
              (Np.mk_ndarray pre
                 (Np.strided (Np.numel pre) l (Np.data text_queries))))) !! i
            = Some (if b then Np.f32_one else Np.f32_zero)).
  { intros b Hb. simpl. rewrite !list_lookup_fmap, strided_lookup by done.
    rewrite Ht. simpl. by rewrite Hb. }
  split; [|split; [|split]].
  - intros ->. by apply (Hm false).
  - intros H. apply (Hm true). by apply bool_decide_eq_true.
  - intros H. apply (Hm false). apply bool_decide_eq_false. lia.
  - intros other Hso Hd. rewrite (getitem_ellipsis_0_snoc _ pre l);
      [|by rewrite Hso|done].
    simpl. by rewrite (strided_ext _ _ _ (Np.data text_queries)).
Qed.

Lemma query_mask_first_token_witness :
  exists mask : tensor,
    query_mask Sample.queries = Ok mask /\
    Np.data mask !! 0 = Some Np.f32_one /\
    Np.data mask !! 1 = Some Np.f32_zero.
Proof.
  destruct (query_mask_first_token Sample.queries [1; 2] 2 0 5)
    as (mask & Hm & _ & _ & Hpos & _); [reflexivity|lia|simpl; lia|reflexivity|].
  destruct (query_mask_first_token Sample.queries [1; 2] 2 1 0)
    as (mask' & Hm' & _ & Hzero & _); [reflexivity|lia|simpl; lia|reflexivity|].
  exists mask. split; [exact Hm|]. split; [apply Hpos; lia|].
  rewrite Hm in Hm'. injection Hm' as ->. by apply Hzero.
Defined.

(** C1 as stated fails: a nonzero first token that is negative gives mask
    value 0, not 1. *)
Lemma query_mask_negative_first_token :
  Np.data Sample.negative_query !! 0 = Some (-1)%Z /\
  (-1 <> 0)%Z /\
  query_mask Sample.negative_query
    = Ok (Np.mk_ndarray [1; 1] [Np.f32_zero]) /\
  Np.f32_zero <> Np.f32_one.
Proof.
  split; [reflexivity|]. split; [lia|]. split; [reflexivity|]. discriminate.
Qed.

(** C6: the class predictor raises InvalidArgument when exactly one of the
    query embeddings and the query mask is given, and returns only when both
    or neither are given. *)
Theorem class_predictor_requires_both
    (project : tensor -> result tensor)
    (masked_similarity : tensor -> tensor -> tensor -> result tensor)
    (image_features : tensor) (query_embeddings query_mask : option tensor) :
  (is_Some query_embeddings /\ query_mask = None \/
   query_embeddings = None /\ is_Some query_mask ->
   class_predictor project masked_similarity
     image_features query_embeddings query_mask = Raise InvalidArgument) /\
  (returns (class_predictor project masked_similarity
              image_features query_embeddings query_mask) ->
   is_Some query_embeddings /\ is_Some query_mask \/
   query_embeddings = None /\ query_mask = None).
Proof.
  unfold class_predictor, _class_head, ClassPredictor. split.
  - intros [[[q ->] ->]|[-> [m ->]]]; reflexivity.
  - destruct query_embeddings as [q|], query_mask as [m|]; intros [out H];
      try discriminate; [left|right]; eauto.
Qed.

Lemma class_predictor_requires_both_witness :
  class_predictor Sample.project Sample.masked_similarity
    (Np.zeros [1; 4; 3]) (Some (Np.zeros [1; 2; 3])) None
    = Raise InvalidArgument /\
  class_predictor Sample.project Sample.masked_similarity
    (Np.zeros [1; 4; 3]) None (Some (Np.zeros [1; 2]))
    = Raise InvalidArgument.
Proof.
  split.
  - apply (proj1 (class_predictor_requires_both
                    Sample.project Sample.masked_similarity
                    (Np.zeros [1; 4; 3]) (Some (Np.zeros [1; 2; 3])) None)).
    left. split; [by eexists | reflexivity].
  - apply (proj1 (class_predictor_requires_both
                    Sample.project Sample.masked_similarity
                    (Np.zeros [1; 4; 3]) None (Some (Np.zeros [1; 2])))).
    right. split; [reflexivity | by eexists].
Defined.

Section Forward.

Variable box_bias : string.
Variable embed_images : tensor -> bool -> result tensor.
Variable embed_texts : itensor -> bool -> result tensor.
Variable seq2img : tensor -> tensor -> result tensor.
Variable compute_box_bias : tensor -> string -> result tensor.
Variable _box_head : tensor -> result tensor.
Variable sigmoid : Np.float32 -> Np.float32.
Variable project : tensor -> result tensor.
Variable masked_similarity : tensor -> tensor -> tensor -> result tensor.

Local Abbreviation box_predictor' :=
  (box_predictor box_bias compute_box_bias _box_head sigmoid).
Local Abbreviation class_predictor' :=
  (class_predictor project masked_similarity).
Local Abbreviation image_embedder' := (image_embedder embed_images seq2img).
Local Abbreviation call' :=
  (__call__ box_bias embed_images embed_texts seq2img compute_box_bias
     _box_head sigmoid project masked_similarity).

(** The one entry of a result of [box_predictor]. *)
Lemma box_predictor_inv image_features feature_map boxes :
  box_predictor' image_features feature_map = Ok boxes ->
  exists raw bias sum,
    _box_head image_features = Ok raw /\
    compute_box_bias feature_map box_bias = Ok bias /\
    Np.add raw bias = Ok sum /\
    boxes = {[ "pred_boxes" := Np.elementwise sigmoid sum ]}.
Proof.
  unfold box_predictor.
  destruct (_box_head image_features) as [raw|]; simpl; [|discriminate].
  destruct (compute_box_bias feature_map box_bias) as [bias|]; simpl;
    [|discriminate].
  destruct (Np.add raw bias) as [sum|] eqn:Hsum; simpl; [|discriminate].
  intros [= <-]. exists raw, bias, sum. done.
Qed.

(** The entries of a result of [class_predictor] called with both query
    embeddings and query mask. *)
Lemma class_predictor_inv image_features qe qm classes :
  class_predictor' image_features (Some qe) (Some qm) = Ok classes ->
  exists ce lg,
    project image_features = Ok ce /\
    masked_similarity ce qe qm = Ok lg /\
    classes = {[ "class_embeddings" := ce; "pred_logits" := lg ]}.
Proof.
  unfold class_predictor, _class_head, ClassPredictor.
  destruct (project image_features) as [ce|]; simpl; [|discriminate].
  destruct (masked_similarity ce qe qm) as [lg|] eqn:Hlg; simpl;
    [|discriminate].
  intros [= <-]. exists ce, lg. done.
Qed.

(** A result of the forward pass, step by step. *)
Lemma call_inv inputs text_queries train out :
  call' inputs text_queries train = Ok out ->
  exists fm b h w d qe mask classes boxes,
    image_embedder' inputs train = Ok fm /\
    Np.shape fm = [b; h; w; d] /\
    text_embedder embed_texts text_queries train = Ok qe /\
    query_mask text_queries = Ok mask /\
    class_predictor' (Np.mk_ndarray [b; h * w; d] (Np.data fm))
      (Some qe) (Some mask) = Ok classes /\
    box_predictor' (Np.mk_ndarray [b; h * w; d] (Np.data fm)) fm
      = Ok boxes /\
    out = boxes ∪ (classes ∪
            {[ "feature_map" := fm; "query_embeddings" := qe ]}).
Proof.
  unfold __call__.
  destruct (image_embedder' inputs train) as [fm|]; step; [|discriminate].
  destruct (Np.shape fm) as [|b [|h [|w [|d [|]]]]] eqn:Hs;
    try discriminate.
  unfold Np.reshape. destruct (decide _); step; [|discriminate].
  destruct (text_embedder _ _ _) as [qe|]; step; [|discriminate].
  destruct (query_mask text_queries) as [mask|]; step; [|discriminate].
  destruct (class_predictor' _ (Some qe) (Some mask)) as [classes|] eqn:Hc;
    step; [|discriminate].
  destruct (box_predictor' _ fm) as [boxes|] eqn:Hb; step; [|discriminate].
  intros [= <-]. exists fm, b, h, w, d, qe, mask, classes, boxes.
  repeat split; done.
Qed.


(** C5, as amended: on a valid batch the forward pass returns a mapping
    with exactly the keys [feature_map], [query_embeddings],
    [class_embeddings], [pred_logits] and [pred_boxes]; [pred_logits] has
    shape [b, h*w, q] and [pred_boxes] has shape [b, h*w, 4]. *)
Theorem call_output_record inputs text_queries train (b h w q : nat) :
  spec_shapes project masked_similarity _box_head compute_box_bias ->
  valid_batch box_bias embed_images embed_texts seq2img compute_box_bias
    _box_head sigmoid project masked_similarity
    inputs text_queries train b h w q ->
  exists (out : gmap string tensor) (lg bx : tensor),
    call' inputs text_queries train = Ok out /\
    dom out = {[ "feature_map"; "query_embeddings"; "class_embeddings";
                 "pred_logits"; "pred_boxes" ]} /\
    out !! "pred_logits" = Some lg /\ Np.shape lg = [b; h * w; q] /\
    out !! "pred_boxes" = Some bx /\ Np.shape bx = [b; h * w; 4].
Proof.
  intros (Hproj & Hsim & Hhead & Hbias)
    (fm & qe & mask & l & d & d' & Hq & Hf & Hs & Hwf & Ht & Hqe & Hm
     & [classes Hc] & [boxes Hb]).
  unfold __call__. rewrite Hf. step. rewrite Hs.
  unfold Np.reshape. destruct (decide _) as [_|Hne]; step.
  2:{ exfalso. apply Hne. rewrite Hwf, Hs. simpl. lia. }
  rewrite Ht. step. rewrite Hm. step. rewrite Hc. step.
  rewrite Hb. step.
  apply class_predictor_inv in Hc as (ce & lg & Hce & Hlg & ->).
  apply box_predictor_inv in Hb as (raw & bias & sum & Hraw & Hbi & Hsum & ->).
  destruct (Hproj _ _ b (h * w) d Hce eq_refl) as [d'' Hces].
  pose proof (Hsim _ _ _ _ _ _ _ _ _ Hlg Hces Hqe) as Hlgs.
  pose proof (Hhead _ _ b (h * w) d Hraw eq_refl) as Hraws.
  pose proof (Hbias _ _ _ _ _ _ _ Hbi Hs) as Hbc.
  rewrite <- Hraws in Hbc. pose proof (add_shape _ _ _ Hsum Hbc) as Hsums.
  eexists _, lg, (Np.elementwise sigmoid sum).
  split; [reflexivity|]. split; [|split; [|split; [|split]]].
  - rewrite !dom_union_L, !dom_insert_L, !dom_singleton_L.
    set_solver.
  - rewrite lookup_union_r by done.
    erewrite lookup_union_Some_l; [reflexivity|].
    rewrite lookup_insert_ne by done. apply lookup_singleton_eq.
  - exact Hlgs.
  - erewrite lookup_union_Some_l; [reflexivity|]. apply lookup_singleton_eq.
  - simpl. by rewrite Hsums.
Qed.

End Forward.

(** The sample components have the shapes of the specification, and the
    sample batch is valid for them. *)
Lemma sample_spec_shapes :
  spec_shapes Sample.project Sample.masked_similarity
    Sample.box_head Sample.compute_box_bias.
Proof.
  repeat split.
  - intros x ce b p d [= <-] Hs. eauto.
  - intros ce qe m lg b p q d1 d2 H Hce Hqe.
    unfold Sample.masked_similarity in H. rewrite Hce, Hqe in H.
    by injection H as <-.
  - intros x y b p d H Hs. unfold Sample.box_head in H. rewrite Hs in H.
    by injection H as <-.
  - intros fm kind bias b h w d H Hs. unfold Sample.compute_box_bias in H.
    rewrite Hs in H. injection H as <-.
    unfold Np.broadcastable_onto, Np.broadcast_shapes. simpl.
    rewrite !decide_True by done. reflexivity.
Qed.

Lemma sample_class_predictor :
  class_predictor Sample.project Sample.masked_similarity
    Sample.features (Some (Np.zeros [1; 2; 2])) (Some Sample.mask)
  = Ok Sample.classes.
Proof. vm_compute. reflexivity. Qed.

Lemma sample_box_predictor :
  box_predictor "both" Sample.compute_box_bias Sample.box_head Sample.sigmoid
    Sample.features Sample.images
  = Ok Sample.boxes.
Proof. vm_compute. reflexivity. Qed.

Lemma sample_call :
  __call__ "both" Sample.embed_images Sample.embed_texts Sample.seq2img
    Sample.compute_box_bias Sample.box_head Sample.sigmoid
    Sample.project Sample.masked_similarity
    Sample.images Sample.queries true
  = Ok Sample.outputs.
Proof. vm_compute. reflexivity. Qed.

Lemma sample_valid_batch :
  valid_batch "both" Sample.embed_images Sample.embed_texts Sample.seq2img
    Sample.compute_box_bias Sample.box_head Sample.sigmoid
    Sample.project Sample.masked_similarity
    Sample.images Sample.queries true 1 2 2 2.
Proof.
  exists Sample.images, (Np.zeros [1; 2; 2]), Sample.mask, 2, 3, 2.
  split; [reflexivity|]. split; [reflexivity|]. split; [reflexivity|].
  split; [reflexivity|]. split; [reflexivity|]. split; [reflexivity|].
  split; [reflexivity|]. split.
  - exists Sample.classes. exact sample_class_predictor.
  - exists Sample.boxes. exact sample_box_predictor.
Qed.


Lemma call_output_record_witness :
  exists (out : gmap string tensor) (lg bx : tensor),
    __call__ "both" Sample.embed_images Sample.embed_texts Sample.seq2img
      Sample.compute_box_bias Sample.box_head Sample.sigmoid
      Sample.project Sample.masked_similarity
      Sample.images Sample.queries true = Ok out /\
    dom out = {[ "feature_map"; "query_embeddings"; "class_embeddings";
                 "pred_logits"; "pred_boxes" ]} /\
    out !! "pred_logits" = Some lg /\ Np.shape lg = [1; 2 * 2; 2] /\
    out !! "pred_boxes" = Some bx /\ Np.shape bx = [1; 2 * 2; 4].
Proof.
  exact (call_output_record "both"
           Sample.embed_images Sample.embed_texts Sample.seq2img
           Sample.compute_box_bias Sample.box_head Sample.sigmoid
           Sample.project Sample.masked_similarity
           Sample.images Sample.queries true 1 2 2 2
           sample_spec_shapes sample_valid_batch).
Defined.

(** C5 as stated fails: on a valid batch the returned mapping also has the
    key [class_embeddings], so its keys are not exactly the four named. *)
Lemma call_output_has_class_embeddings :
  valid_batch "both" Sample.embed_images Sample.embed_texts Sample.seq2img
    Sample.compute_box_bias Sample.box_head Sample.sigmoid
    Sample.project Sample.masked_similarity
    Sample.images Sample.queries true 1 2 2 2 /\
  __call__ "both" Sample.embed_images Sample.embed_texts Sample.seq2img
    Sample.compute_box_bias Sample.box_head Sample.sigmoid
    Sample.project Sample.masked_similarity
    Sample.images Sample.queries true = Ok Sample.outputs /\
  Sample.outputs !! "class_embeddings" = Some Sample.features /\
  dom Sample.outputs <> {[ "feature_map"; "query_embeddings";
                           "pred_logits"; "pred_boxes" ]}.
Proof.
  split; [exact sample_valid_batch|]. split; [exact sample_call|].
  assert (Hc : Sample.outputs !! "class_embeddings" = Some Sample.features).
  { vm_compute. reflexivity. }
  split; [exact Hc|]. intros Hdom.
  assert (Hin : "class_embeddings" ∈ dom Sample.outputs).
  { apply elem_of_dom. rewrite Hc. by eexists. }
  rewrite Hdom in Hin. set_unfold in Hin. naive_solver.
Qed.

(** ** Further properties of the loaders *)

Lemma load_default_eq
    (restore_checkpoint : string -> gmap string pytree)
    (load_backbone : pytree -> option string -> result pytree)
    (params : pytree) (init_config : gmap string string) (path : string) :
  init_config !! "codebase" <> Some "clip" ->
  init_config !! "checkpoint_path" = Some path ->
  load restore_checkpoint load_backbone params init_config
    = (content ← checkpoint_content (restore_checkpoint path);
       strip_stale content).
Proof.
  intros Hmode Hpath. unfold load, checkpoint_content.
  destruct (decide _) as [?|_]; [done|].
  unfold Py.getattr. rewrite Hpath. step.
  destruct (Py.contains "optimizer" (restore_checkpoint path)).
  - destruct (Py.dict_getitem _ "optimizer") as [o|e]; step; [|reflexivity].
    destruct (Py.getitem o "target") as [t|e]; step; [|reflexivity].
    apply pop_pop_strip_stale.
  - destruct (Py.dict_getitem _ "params") as [p|e]; step; [|reflexivity].
    apply pop_pop_strip_stale.
Qed.

Lemma strip_stale_inv content r :
  strip_stale content = Ok r ->
  exists m ch,
    content = PDict m /\ m !! "class_head" = Some (PDict ch) /\
    r = PDict (<["class_head" :=
                  PDict (delete "padding_bias" (delete "padding" ch))]> m).
Proof.
  unfold strip_stale. destruct content as [a|m]; [discriminate|].
  destruct (m !! "class_head") as [[a|ch]|] eqn:Hch; try discriminate.
  intros [= <-]. eauto.
Qed.

Lemma strip_stale_clean m ch :
  m !! "class_head" = Some (PDict ch) ->
  ch !! "padding" = None -> ch !! "padding_bias" = None ->
  strip_stale (PDict m) = Ok (PDict m).
Proof.
  intros Hch H1 H2. unfold strip_stale. rewrite Hch.
  rewrite (delete_id ch "padding") by done.
  rewrite (delete_id ch "padding_bias") by done.
  by rewrite insert_id.
Qed.

(** The two modes of [load] read different things: in the backbone-codebase
    mode the result does not depend on the checkpoint store, in the default
    mode it depends neither on the supplied parameters nor on the backbone
    loader (the supplied mapping is replaced whole). *)
Theorem load_modes_read_apart
    (restore_checkpoint : string -> gmap string pytree)
    (load_backbone : pytree -> option string -> result pytree)
    (params : pytree) (init_config : gmap string string) :
  (init_config !! "codebase" = Some "clip" ->
   forall restore_checkpoint' : string -> gmap string pytree,
     load restore_checkpoint load_backbone params init_config
       = load restore_checkpoint' load_backbone params init_config) /\
  (init_config !! "codebase" <> Some "clip" ->
   forall (load_backbone' : pytree -> option string -> result pytree)
          (params' : pytree),
     load restore_checkpoint load_backbone params init_config
       = load restore_checkpoint load_backbone' params' init_config).
Proof.
  unfold load. split; intros Hmode.
  - intros restore_checkpoint'. destruct (decide _) as [_|?]; done.
  - intros load_backbone' params'. destruct (decide _) as [?|_]; done.
Qed.

Lemma load_modes_read_apart_witness :
  load (Sample.store Sample.ckpt_params) Sample.backbone_loader
    Sample.model_params Sample.scenic_config
  = load (Sample.store Sample.ckpt_params) (fun _ _ => Raise ValueError)
      Sample.leaf0 Sample.scenic_config.
Proof.
  apply (proj2 (load_modes_read_apart
                  (Sample.store Sample.ckpt_params) Sample.backbone_loader
                  Sample.model_params Sample.scenic_config)).
  vm_compute. discriminate.
Defined.

(** In the default mode a result of [load] differs from the content of the
    checkpoint only under "class_head", and there only by the keys "padding"
    and "padding_bias", which the result never has. *)
Theorem load_default_frame
    (restore_checkpoint : string -> gmap string pytree)
    (load_backbone : pytree -> option string -> result pytree)
    (params content r : pytree) (init_config : gmap string string)
    (path : string) :
  init_config !! "codebase" <> Some "clip" ->
  init_config !! "checkpoint_path" = Some path ->
  checkpoint_content (restore_checkpoint path) = Ok content ->
  load restore_checkpoint load_backbone params init_config = Ok r ->
  exists m m' ch ch',
    content = PDict m /\ r = PDict m' /\
    m !! "class_head" = Some (PDict ch) /\
    m' !! "class_head" = Some (PDict ch') /\
    ch' !! "padding" = None /\ ch' !! "padding_bias" = None /\
    (forall k, k <> "padding" -> k <> "padding_bias" -> ch' !! k = ch !! k) /\
    (forall k, k <> "class_head" -> m' !! k = m !! k).
Proof.
  intros Hmode Hpath Hc. rewrite (load_default_eq _ _ _ _ path) by done.
  rewrite Hc. step. intros Hs.
  apply strip_stale_inv in Hs as (m & ch & -> & Hch & ->).
  eexists m, _, ch, _. split; [reflexivity|]. split; [reflexivity|].
  split; [exact Hch|]. split; [apply lookup_insert_eq|].
  split; [|split; [|split]].
  - rewrite lookup_delete_ne by done. apply lookup_delete_eq.
  - apply lookup_delete_eq.
  - intros k H1 H2. by rewrite !lookup_delete_ne.
  - intros k Hk. by rewrite lookup_insert_ne.
Qed.

Lemma load_default_frame_witness :
  exists m m' ch ch',
    Sample.content_stale = PDict m /\
    PDict {[ "class_head" := PDict ∅ ]} = PDict m' /\
    m !! "class_head" = Some (PDict ch) /\
    m' !! "class_head" = Some (PDict ch') /\
    ch' !! "padding" = None /\ ch' !! "padding_bias" = None /\
    (forall k, k <> "padding" -> k <> "padding_bias" -> ch' !! k = ch !! k) /\
    (forall k, k <> "class_head" -> m' !! k = m !! k).
Proof.
  apply (load_default_frame
           (Sample.store Sample.ckpt_optimizer) Sample.backbone_loader
           Sample.model_params Sample.content_stale _
           Sample.scenic_config "/ckpt").
  - vm_compute. discriminate.
  - vm_compute. reflexivity.
  - vm_compute. reflexivity.
  - vm_compute. reflexivity.
Defined.

(** A checkpoint whose class head has neither "padding" nor "padding_bias"
    is loaded unchanged by the default mode of [load]: the absence of the
    stale keys is not an error. *)
Theorem load_default_clean_unchanged
    (restore_checkpoint : string -> gmap string pytree)
    (load_backbone : pytree -> option string -> result pytree)
    (params : pytree) (init_config : gmap string string) (path : string)
    (m ch : gmap string pytree) :
  init_config !! "codebase" <> Some "clip" ->
  init_config !! "checkpoint_path" = Some path ->
  checkpoint_content (restore_checkpoint path) = Ok (PDict m) ->
  m !! "class_head" = Some (PDict ch) ->
  ch !! "padding" = None -> ch !! "padding_bias" = None ->
  load restore_checkpoint load_backbone params init_config = Ok (PDict m).
Proof.
  intros Hmode Hpath Hc Hch H1 H2.
  rewrite (load_default_eq _ _ _ _ path) by done. rewrite Hc. step.
  by eapply strip_stale_clean.
Qed.

Lemma load_default_clean_unchanged_witness :
  load (Sample.store Sample.ckpt_clean) Sample.backbone_loader
    Sample.model_params Sample.scenic_config
  = Ok (PDict {[ "backbone" := Sample.leaf0;
                 "class_head" := PDict {[ "logit_scale" := Sample.leaf1 ]} ]}).
Proof.
  apply (load_default_clean_unchanged
           (Sample.store Sample.ckpt_clean) Sample.backbone_loader
           Sample.model_params Sample.scenic_config "/ckpt"
           _ {[ "logit_scale" := Sample.leaf1 ]}).
  - vm_compute. discriminate.
  - vm_compute. reflexivity.
  - vm_compute. reflexivity.
  - vm_compute. reflexivity.
  - vm_compute. reflexivity.
  - vm_compute. reflexivity.
Defined.

(** Loading is stable: a result of the default mode of [load], stored again
    under "params" in a checkpoint without "optimizer", is loaded back
    unchanged. *)
Theorem load_default_reload
    (restore_checkpoint restore_checkpoint' : string -> gmap string pytree)
    (load_backbone load_backbone' : pytree -> option string -> result pytree)
    (params params' r : pytree) (init_config init_config' : gmap string string)
    (path' : string) :
  init_config !! "codebase" <> Some "clip" ->
  load restore_checkpoint load_backbone params init_config = Ok r ->
  init_config' !! "codebase" <> Some "clip" ->
  init_config' !! "checkpoint_path" = Some path' ->
  restore_checkpoint' path' !! "optimizer" = None ->
  restore_checkpoint' path' !! "params" = Some r ->
  load restore_checkpoint' load_backbone' params' init_config' = Ok r.
Proof.
  intros Hmode Hload Hmode' Hpath' Ho Hp.
  assert (Hs : exists content, strip_stale content = Ok r).
  { revert Hload. unfold load. destruct (decide _) as [?|_]; [done|].
    destruct (Py.getattr init_config "checkpoint_path") as [path|]; step;
      [|discriminate].
    destruct (if Py.contains "optimizer" (restore_checkpoint path)
              then _ else _) as [content|]; step; [|discriminate].
    rewrite pop_pop_strip_stale. eauto. }
  destruct Hs as [content Hs].
  apply strip_stale_inv in Hs as (m & ch & -> & Hch & ->).
  rewrite (load_default_eq _ _ _ _ path') by done.
  unfold checkpoint_content. rewrite (contains_false _ _ Ho).
  unfold Py.dict_getitem. rewrite Hp. step.
  eapply strip_stale_clean.
  - apply lookup_insert_eq.
  - rewrite lookup_delete_ne by done. apply lookup_delete_eq.
  - apply lookup_delete_eq.
Qed.

Lemma load_default_reload_witness :
  load (Sample.store {[ "params" := PDict {[ "class_head" := PDict ∅ ]} ]})
    Sample.backbone_loader Sample.leaf0 Sample.scenic_config
  = Ok (PDict {[ "class_head" := PDict ∅ ]}).
Proof.
  apply (load_default_reload
           (Sample.store Sample.ckpt_optimizer)
           (Sample.store {[ "params" := PDict {[ "class_head" := PDict ∅ ]} ]})
           Sample.backbone_loader Sample.backbone_loader
           Sample.model_params Sample.leaf0 _
           Sample.scenic_config Sample.scenic_config "/ckpt").
  - vm_compute. discriminate.
  - vm_compute. reflexivity.
  - vm_compute. discriminate.
  - vm_compute. reflexivity.
  - vm_compute. reflexivity.
  - vm_compute. reflexivity.
Defined.

(** On a checkpoint with "params", no "optimizer" and no stale key, both
    loaders return the same content: [load_variables] under the key
    "params", the default mode of [load] directly. *)
Theorem loaders_agree_on_clean_params
    (restore_checkpoint : string -> gmap string pytree)
    (load_backbone : pytree -> option string -> result pytree)
    (params : pytree) (init_config : gmap string string) (path : string)
    (m ch : gmap string pytree) :
  init_config !! "codebase" <> Some "clip" ->
  init_config !! "checkpoint_path" = Some path ->
  restore_checkpoint path !! "optimizer" = None ->
  restore_checkpoint path !! "params" = Some (PDict m) ->
  m !! "class_head" = Some (PDict ch) ->
  ch !! "padding" = None -> ch !! "padding_bias" = None ->
  load_variables restore_checkpoint path = Ok {[ "params" := PDict m ]} /\
  load restore_checkpoint load_backbone params init_config = Ok (PDict m).
Proof.
  intros Hmode Hpath Ho Hp Hch H1 H2. split.
  - by apply load_variables_params.
  - rewrite (load_default_params _ _ _ _ path (PDict m)) by done.
    by eapply strip_stale_clean.
Qed.

Lemma loaders_agree_on_clean_params_witness :
  load_variables (Sample.store Sample.ckpt_clean) "/ckpt"
    = Ok {[ "params" := Sample.content_clean ]} /\
  load (Sample.store Sample.ckpt_clean) Sample.backbone_loader
    Sample.model_params Sample.scenic_config = Ok Sample.content_clean.
Proof.
  apply (loaders_agree_on_clean_params
           (Sample.store Sample.ckpt_clean) Sample.backbone_loader
           Sample.model_params Sample.scenic_config "/ckpt"
           _ {[ "logit_scale" := Sample.leaf1 ]}).
  - vm_compute. discriminate.
  - vm_compute. reflexivity.
  - vm_compute. reflexivity.
  - vm_compute. reflexivity.
  - vm_compute. reflexivity.
  - vm_compute. reflexivity.
  - vm_compute. reflexivity.
Defined.

(** The default mode of [load] does not fall back to "params": when
    "optimizer" is a key that holds no "target", [load] raises (KeyError for
    a dictionary, IndexError for an array) even though "params" is there,
    while [load_variables] returns the content of "params". *)
Theorem load_no_fallback_to_params
    (restore_checkpoint : string -> gmap string pytree)
    (load_backbone : pytree -> option string -> result pytree)
    (params p o : pytree) (init_config : gmap string string) (path : string) :
  init_config !! "codebase" <> Some "clip" ->
  init_config !! "checkpoint_path" = Some path ->
  restore_checkpoint path !! "params" = Some p ->
  restore_checkpoint path !! "optimizer" = Some o ->
  optimizer_target (restore_checkpoint path) = None ->
  load_variables restore_checkpoint path = Ok {[ "params" := p ]} /\
  load restore_checkpoint load_backbone params init_config
    = Raise (match o with
             | PDict _ => KeyError "target"
             | PArr _ => IndexError
             end).
Proof.
  intros Hmode Hpath Hp Ho Ht. split; [by apply load_variables_params|].
  rewrite (load_default_eq _ _ _ _ path) by done.
  unfold checkpoint_content. rewrite (contains_true _ _ _ Ho).
  unfold Py.dict_getitem at 1. rewrite Ho. step.
  unfold optimizer_target in Ht. rewrite Ho in Ht.
  destruct o as [a|om]; [reflexivity|].
  simpl. unfold Py.dict_getitem. rewrite Ht. reflexivity.
Qed.

Lemma load_no_fallback_to_params_witness :
  load_variables (Sample.store Sample.ckpt_no_target) "/ckpt"
    = Ok {[ "params" := Sample.content_a ]} /\
  load (Sample.store Sample.ckpt_no_target) Sample.backbone_loader
    Sample.model_params Sample.scenic_config = Raise (KeyError "target").
Proof.
  apply (load_no_fallback_to_params
           (Sample.store Sample.ckpt_no_target) Sample.backbone_loader
           Sample.model_params Sample.content_a
           (PDict {[ "state" := Sample.leaf0 ]})
           Sample.scenic_config "/ckpt").
  - vm_compute. discriminate.
  - vm_compute. reflexivity.
  - vm_compute. reflexivity.
  - vm_compute. reflexivity.
  - vm_compute. reflexivity.
Defined.

(** With neither key in the restored mapping the two loaders name different
    keys: [load_variables] raises KeyError for "optimizer" (its fallback),
    the default mode of [load] raises KeyError for "params". *)
Theorem loaders_key_errors
    (restore_checkpoint : string -> gmap string pytree)
    (load_backbone : pytree -> option string -> result pytree)
    (params : pytree) (init_config : gmap string string) (path : string) :
  init_config !! "codebase" <> Some "clip" ->
  init_config !! "checkpoint_path" = Some path ->
  restore_checkpoint path !! "params" = None ->
  restore_checkpoint path !! "optimizer" = None ->
  load_variables restore_checkpoint path = Raise (KeyError "optimizer") /\
  load restore_checkpoint load_backbone params init_config
    = Raise (KeyError "params").
Proof.
  intros Hmode Hpath Hp Ho. split.
  - rewrite load_variables_fallback by done.
    unfold Py.dict_getitem. by rewrite Ho.
  - rewrite (load_default_eq _ _ _ _ path) by done.
    unfold checkpoint_content. rewrite (contains_false _ _ Ho).
    unfold Py.dict_getitem. by rewrite Hp.
Qed.

Lemma loaders_key_errors_witness :
  load_variables (Sample.store Sample.ckpt_neither) "/ckpt"
    = Raise (KeyError "optimizer") /\
  load (Sample.store Sample.ckpt_neither) Sample.backbone_loader
    Sample.model_params Sample.scenic_config = Raise (KeyError "params").
Proof.
  apply (loaders_key_errors
           (Sample.store Sample.ckpt_neither) Sample.backbone_loader
           Sample.model_params Sample.scenic_config "/ckpt").
  - vm_compute. discriminate.
  - vm_compute. reflexivity.
  - vm_compute. reflexivity.
  - vm_compute. reflexivity.
Defined.

(** A configuration without [checkpoint_path]: the default mode of [load]
    raises AttributeError whatever the store holds, while the
    backbone-codebase mode goes on and hands the backbone loader no path. *)
Theorem load_without_checkpoint_path
    (restore_checkpoint : string -> gmap string pytree)
    (load_backbone : pytree -> option string -> result pytree)
    (params : pytree) (init_config : gmap string string) :
  init_config !! "checkpoint_path" = None ->
  (init_config !! "codebase" <> Some "clip" ->
   load restore_checkpoint load_backbone params init_config
     = Raise (AttributeError "checkpoint_path")) /\
  (init_config !! "codebase" = Some "clip" ->
   forall m backbone backbone',
     params = PDict m -> m !! "backbone" = Some backbone ->
     load_backbone backbone None = Ok backbone' ->
     load restore_checkpoint load_backbone params init_config
       = Ok (PDict (<["backbone" := backbone']> m))).
Proof.
  intros Hpath. unfold load. split; intros Hmode.
  - destruct (decide _) as [?|_]; [done|].
    unfold Py.getattr. by rewrite Hpath.
  - intros m backbone backbone' -> Hb Hl.
    destruct (decide _) as [_|?]; [|done].
    simpl. unfold Py.dict_getitem. rewrite Hb. step.
    rewrite Hpath, Hl. reflexivity.
Qed.

Lemma load_without_checkpoint_path_witness :
  load (Sample.store Sample.ckpt_params) Sample.backbone_loader
    Sample.model_params Sample.config_no_path
  = Raise (AttributeError "checkpoint_path").
Proof.
  apply (proj1 (load_without_checkpoint_path
                  (Sample.store Sample.ckpt_params) Sample.backbone_loader
                  Sample.model_params Sample.config_no_path eq_refl)).
  vm_compute. discriminate.
Defined.

(** In the backbone-codebase mode [load] returns exactly when the supplied
    parameters are a mapping with a "backbone" entry on which the backbone
    loader returns; a mapping without "backbone" gives KeyError. *)
Theorem load_clip_returns_iff
    (restore_checkpoint : string -> gmap string pytree)
    (load_backbone : pytree -> option string -> result pytree)
    (params r : pytree) (init_config : gmap string string) :
  init_config !! "codebase" = Some "clip" ->
  (load restore_checkpoint load_backbone params init_config = Ok r <->
   exists m backbone backbone',
     params = PDict m /\ m !! "backbone" = Some backbone /\
     load_backbone backbone (init_config !! "checkpoint_path") = Ok backbone' /\
     r = PDict (<["backbone" := backbone']> m)) /\
  (forall m, params = PDict m -> m !! "backbone" = None ->
     load restore_checkpoint load_backbone params init_config
       = Raise (KeyError "backbone")).
Proof.
  intros Hmode. unfold load. destruct (decide _) as [_|?]; [|done].
  split; [split|].
  - destruct params as [a|m]; simpl; [discriminate|].
    unfold Py.dict_getitem.
    destruct (m !! "backbone") as [backbone|] eqn:Hb; step; [|discriminate].
    destruct (load_backbone backbone _) as [backbone'|e] eqn:Hl; step;
      [|discriminate].
    intros [= <-]. exists m, backbone, backbone'. done.
  - intros (m & backbone & backbone' & -> & Hb & Hl & ->).
    simpl. unfold Py.dict_getitem. rewrite Hb. step. rewrite Hl. reflexivity.
  - intros m -> Hb. simpl. unfold Py.dict_getitem. by rewrite Hb.
Qed.

Lemma load_clip_returns_iff_witness :
  load (Sample.store Sample.ckpt_params) Sample.backbone_loader
    (PDict {[ "class_head" := Sample.leaf0 ]}) Sample.clip_config
  = Raise (KeyError "backbone").
Proof.
  apply (proj2 (load_clip_returns_iff
                  (Sample.store Sample.ckpt_params) Sample.backbone_loader
                  (PDict {[ "class_head" := Sample.leaf0 ]}) Sample.leaf0
                  Sample.clip_config ltac:(vm_compute; reflexivity))
           {[ "class_head" := Sample.leaf0 ]} eq_refl).
  vm_compute. reflexivity.
Defined.

(** ** Further properties of arrays *)

Lemma numel_app (s1 s2 : list nat) :
  Np.numel (s1 ++ s2) = Np.numel s1 * Np.numel s2.
Proof.
  unfold Np.numel. induction s1 as [|a s1 IH]; simpl; [lia|].
  rewrite IH. lia.
Qed.

Lemma numel_rev (sh : list nat) : Np.numel (rev sh) = Np.numel sh.
Proof.
  induction sh as [|a sh IH]; [reflexivity|].
  simpl rev. rewrite numel_app, IH. unfold Np.numel. simpl. lia.
Qed.

Lemma strided_length_exact {A} (n l : nat) (d : list A) :
  l <> 0 -> length d = n * l -> length (Np.strided n l d) = n.
Proof.
  intros Hl. revert d. induction n as [|n IH]; intros d Hd; [reflexivity|].
  destruct d as [|x d]; simpl in *; [lia|].
  rewrite IH; [reflexivity|]. rewrite length_drop. simpl. lia.
Qed.

Lemma broadcast_rev_refl (r : list nat) : Np.broadcast_rev r r = Some r.
Proof.
  induction r as [|a r IH]; [reflexivity|].
  simpl. rewrite decide_True by done. simpl. rewrite IH. reflexivity.
Qed.

(** An operand that broadcasts onto the result is read inside its bounds. *)
Lemma ravel_unravel_lt (rb rs : list nat) (k : nat) :
  Np.broadcast_rev rb rs = Some rb -> 0 < Np.numel rb ->
  Np.ravel_rev rs (Np.unravel_rev rb k) < Np.numel rs.
Proof.
  revert rs k. induction rb as [|a rb IH]; intros rs k Hb Hpos.
  - destruct rs; [|discriminate]. simpl. unfold Np.numel. simpl. lia.
  - destruct rs as [|b rs]; [unfold Np.numel; simpl; lia|].
    simpl in Hb.
    destruct (Np.broadcast_rev rb rs) as [r|] eqn:Hr.
    2:{ destruct (decide (a = b)); [discriminate|].
        destruct (decide (a = 1)); [discriminate|].
        destruct (decide (b = 1)); discriminate. }
    assert (Hpos' : 0 < a /\ 0 < Np.numel rb).
    { unfold Np.numel in *. simpl in Hpos. nia. }
    destruct Hpos' as [Ha Hrb].
    assert (Hab : (b = a \/ b = 1) /\ r = rb).
    { destruct (decide (a = b)) as [->|Hne]; simpl in Hb.
      - injection Hb as ->. auto.
      - destruct (decide (a = 1)) as [->|Ha1]; simpl in Hb.
        + injection Hb as -> ->. auto.
        + destruct (decide (b = 1)) as [->|Hb1]; simpl in Hb;
            [|discriminate].
          injection Hb as ->. auto. }
    destruct Hab as [Hab ->].
    specialize (IH rs (k / a) Hr Hrb).
    unfold Np.numel in *. simpl.
    destruct (decide (b = 1)) as [->|Hb1]; [lia|].
    destruct Hab as [->|?]; [|done].
    pose proof (Nat.mod_upper_bound k a ltac:(lia)). nia.
Qed.

Lemma add_inv (x y z : tensor) :
  Np.add x y = Ok z ->
  Np.broadcast_shapes (Np.shape x) (Np.shape y) = Some (Np.shape z) /\
  Np.wf z.
Proof.
  unfold Np.add, Np.broadcast_map2.
  destruct (Np.broadcast_shapes _ _) as [sh|]; [|discriminate].
  destruct (mapM _ _) as [d|] eqn:Hd; [|discriminate].
  intros [= <-]. split; [reflexivity|].
  unfold Np.wf. simpl. apply length_mapM in Hd.
  rewrite <- Hd. apply length_seq.
Qed.

Lemma add_returns (x y : tensor) :
  Np.wf x -> Np.wf y ->
  Np.broadcastable_onto (Np.shape y) (Np.shape x) ->
  returns (Np.add x y).
Proof.
  unfold Np.wf, Np.broadcastable_onto. intros Hx Hy Hb.
  unfold Np.add, Np.broadcast_map2. rewrite Hb.
  unfold Np.broadcast_shapes in Hb.
  destruct (Np.broadcast_rev (rev (Np.shape x)) (rev (Np.shape y)))
    as [r|] eqn:Hr; [|discriminate].
  simpl in Hb. injection Hb as Hb.
  assert (Hrx : r = rev (Np.shape x)) by (by rewrite <- Hb, rev_involutive).
  subst r.
  match goal with |- returns (match mapM ?f ?l with _ => _ end) =>
    assert (Hs : is_Some (mapM f l)) end.
  { apply mapM_is_Some_2, Forall_forall. intros k Hk.
    apply elem_of_seq in Hk. simpl.
    assert (Hpos : 0 < Np.numel (rev (Np.shape x))) by (rewrite numel_rev; lia).
    pose proof (ravel_unravel_lt _ _ k
                  (broadcast_rev_refl (rev (Np.shape x))) Hpos) as H1.
    pose proof (ravel_unravel_lt _ _ k Hr Hpos) as H2.
    rewrite numel_rev, <- Hx in H1. rewrite numel_rev, <- Hy in H2.
    apply lookup_lt_is_Some in H1 as [a Ha].
    apply lookup_lt_is_Some in H2 as [b Hb'].
    rewrite Ha. simpl. rewrite Hb'. simpl. by eexists. }
  destruct Hs as [d ->]. by eexists.
Qed.

(** ** Further properties of the forward pass *)

(** The query mask of well-formed text queries [..., l] with [l] nonzero is
    a well-formed array of the leading shape whose entries are all 0 or 1. *)
Theorem query_mask_well_formed
    (text_queries : itensor) (pre : list nat) (l : nat) :
  Np.shape text_queries = pre ++ [l] -> l <> 0 -> Np.wf text_queries ->
  exists mask : tensor,
    query_mask text_queries = Ok mask /\
    Np.shape mask = pre /\ Np.wf mask /\
    Forall (fun v => v = Np.f32_zero \/ v = Np.f32_one) (Np.data mask).
Proof.
  intros Hs Hl Hwf. unfold query_mask.
  rewrite (getitem_ellipsis_0_snoc _ pre l) by done. step.
  eexists. split; [reflexivity|]. split; [reflexivity|]. split.
  - unfold Np.wf in *. simpl. rewrite !length_map.
    apply strided_length_exact; [done|].
    rewrite Hwf, Hs, numel_app. unfold Np.numel. simpl. lia.
  - simpl. apply Forall_forall. intros v Hv.
    apply list_elem_of_fmap in Hv as (bv & -> & _). destruct bv; auto.
Qed.

Lemma query_mask_well_formed_witness :
  exists mask : tensor,
    query_mask Sample.queries = Ok mask /\
    Np.shape mask = [1; 2] /\ Np.wf mask /\
    Forall (fun v => v = Np.f32_zero \/ v = Np.f32_one) (Np.data mask).
Proof.
  apply (query_mask_well_formed Sample.queries [1; 2] 2).
  - reflexivity.
  - lia.
  - reflexivity.
Defined.

Section ForwardStages.

Variable box_bias : string.
Variable embed_images : tensor -> bool -> result tensor.
Variable embed_texts : itensor -> bool -> result tensor.
Variable seq2img : tensor -> tensor -> result tensor.
Variable compute_box_bias : tensor -> string -> result tensor.
Variable _box_head : tensor -> result tensor.
Variable sigmoid : Np.float32 -> Np.float32.
Variable project : tensor -> result tensor.
Variable masked_similarity : tensor -> tensor -> tensor -> result tensor.

Local Abbreviation forward :=
  (__call__ box_bias embed_images embed_texts seq2img compute_box_bias
     _box_head sigmoid project masked_similarity).

(** A result of [box_predictor] has the single key [pred_boxes]; its array is
    well formed and its shape is the broadcast of the shapes of the head's
    output and of the bias. *)
Theorem box_predictor_result (image_features feature_map : tensor)
    (out : gmap string tensor) :
  box_predictor box_bias compute_box_bias _box_head sigmoid
    image_features feature_map = Ok out ->
  exists raw bias bx,
    _box_head image_features = Ok raw /\
    compute_box_bias feature_map box_bias = Ok bias /\
    out = {[ "pred_boxes" := bx ]} /\ dom out = {[ "pred_boxes" ]} /\
    Np.broadcast_shapes (Np.shape raw) (Np.shape bias) = Some (Np.shape bx) /\
    Np.wf bx.
Proof.
  intros H. apply box_predictor_inv in H
    as (raw & bias & sum & Hraw & Hbias & Hsum & ->).
  apply add_inv in Hsum as [Hsh Hwf].
  exists raw, bias, (Np.elementwise sigmoid sum).
  split; [exact Hraw|]. split; [exact Hbias|]. split; [reflexivity|].
  split; [by rewrite dom_singleton_L|]. split; [exact Hsh|].
  unfold Np.wf in *. simpl. by rewrite length_map.
Qed.

(** [box_predictor] returns whenever the box head and the bias utility
    return well-formed arrays and the bias broadcasts onto the head's output:
    the addition and the sigmoid never raise, and the boxes keep the shape of
    the head's output. *)
Theorem box_predictor_returns (image_features feature_map raw bias : tensor) :
  _box_head image_features = Ok raw ->
  compute_box_bias feature_map box_bias = Ok bias ->
  Np.wf raw -> Np.wf bias ->
  Np.broadcastable_onto (Np.shape bias) (Np.shape raw) ->
  exists bx,
    box_predictor box_bias compute_box_bias _box_head sigmoid
      image_features feature_map = Ok {[ "pred_boxes" := bx ]} /\
    Np.shape bx = Np.shape raw /\ Np.wf bx.
Proof.
  intros Hraw Hbias Hwr Hwb Hb.
  destruct (add_returns raw bias Hwr Hwb Hb) as [sum Hsum].
  pose proof (add_shape _ _ _ Hsum Hb) as Hsh.
  apply add_inv in Hsum as Hinv. destruct Hinv as [_ Hwf].
  exists (Np.elementwise sigmoid sum).
  unfold box_predictor. rewrite Hraw. step. rewrite Hbias. step.
  rewrite Hsum. step. split; [reflexivity|]. split; [exact Hsh|].
  unfold Np.wf in *. simpl. by rewrite length_map.
Qed.

(** The training flag reaches the forward pass through the embedder only:
    two flags on which the image and the text embedder agree give the same
    result. *)
Theorem call_train_only_through_embedder
    (inputs : tensor) (text_queries : itensor) (train1 train2 : bool) :
  image_embedder embed_images seq2img inputs train1
    = image_embedder embed_images seq2img inputs train2 ->
  text_embedder embed_texts text_queries train1
    = text_embedder embed_texts text_queries train2 ->
  forward inputs text_queries train1 = forward inputs text_queries train2.
Proof.
  intros Hi Ht. unfold __call__. rewrite Hi.
  destruct (image_embedder embed_images seq2img inputs train2) as [fm|];
    step; [|reflexivity].
  destruct (Np.shape fm) as [|b [|h [|w [|d [|]]]]]; try reflexivity.
  destruct (Np.reshape fm [b; h * w; d]) as [feats|]; step; [|reflexivity].
  by rewrite Ht.
Qed.

(** When the image embedder returns a well-formed feature map
    [b, h, w, d], the flattening to [b, h*w, d] never raises: the forward
    pass returns exactly when the text embedder, the query mask and the two
    heads return, and its result is the merge of their results over the two
    embeddings, later stages winning. *)
Theorem call_returns_iff
    (inputs : tensor) (text_queries : itensor) (train : bool)
    (fm : tensor) (b h w d : nat) (out : gmap string tensor) :
  image_embedder embed_images seq2img inputs train = Ok fm ->
  Np.shape fm = [b; h; w; d] -> Np.wf fm ->
  (forward inputs text_queries train = Ok out <->
   exists qe mask classes boxes,
     text_embedder embed_texts text_queries train = Ok qe /\
     query_mask text_queries = Ok mask /\
     class_predictor project masked_similarity
       (Np.mk_ndarray [b; h * w; d] (Np.data fm))
       (Some qe) (Some mask) = Ok classes /\
     box_predictor box_bias compute_box_bias _box_head sigmoid
       (Np.mk_ndarray [b; h * w; d] (Np.data fm)) fm = Ok boxes /\
     out = boxes ∪ (classes ∪
             {[ "feature_map" := fm; "query_embeddings" := qe ]})).
Proof.
  intros Hf Hs Hwf. split.
  - intros H. apply call_inv in H
      as (fm' & b' & h' & w' & d' & qe & mask & classes & boxes
          & Hf' & Hs' & Ht & Hm & Hc & Hb & ->).
    rewrite Hf in Hf'. injection Hf' as <-.
    rewrite Hs in Hs'. injection Hs' as <- <- <- <-.
    exists qe, mask, classes, boxes. done.
  - intros (qe & mask & classes & boxes & Ht & Hm & Hc & Hb & ->).
    unfold __call__. rewrite Hf. step. rewrite Hs.
    unfold Np.reshape. destruct (decide _) as [_|Hne]; step.
    2:{ exfalso. apply Hne. unfold Np.wf in Hwf. rewrite Hwf, Hs.
        unfold Np.numel. simpl. lia. }
    rewrite Ht. step. rewrite Hm. step. rewrite Hc. step.
    rewrite Hb. step. reflexivity.
Qed.

(** The merge keeps the embeddings: in a result of the forward pass
    [feature_map] is what the image embedder returned and
    [query_embeddings] what the text embedder returned, neither is
    overwritten by a head. *)
Theorem call_keeps_embeddings
    (inputs : tensor) (text_queries : itensor) (train : bool)
    (out : gmap string tensor) :
  forward inputs text_queries train = Ok out ->
  exists fm qe,
    image_embedder embed_images seq2img inputs train = Ok fm /\
    text_embedder embed_texts text_queries train = Ok qe /\
    out !! "feature_map" = Some fm /\
    out !! "query_embeddings" = Some qe.
Proof.
  intros H. apply call_inv in H
    as (fm & b & h & w & d & qe & mask & classes & boxes
        & Hf & Hs & Ht & Hm & Hc & Hb & ->).
  apply class_predictor_inv in Hc as (ce & lg & _ & _ & ->).
  apply box_predictor_inv in Hb as (raw & bias & sum & _ & _ & _ & ->).
  exists fm, qe. split; [exact Hf|]. split; [exact Ht|]. split.
  - rewrite lookup_union_r by done. rewrite lookup_union_r by done.
    apply lookup_insert_eq.
  - rewrite lookup_union_r by done. rewrite lookup_union_r by done.
    rewrite lookup_insert_ne by done. apply lookup_singleton_eq.
Qed.

(** A feature map that does not have four axes makes the forward pass raise
    ValueError, whatever the queries and the heads are. *)
Theorem call_feature_map_rank
    (inputs : tensor) (text_queries : itensor) (train : bool) (fm : tensor) :
  image_embedder embed_images seq2img inputs train = Ok fm ->
  length (Np.shape fm) <> 4 ->
  forward inputs text_queries train = Raise ValueError.
Proof.
  intros Hf Hlen. unfold __call__. rewrite Hf. step.
  destruct (Np.shape fm) as [|b [|h [|w [|d [|]]]]]; try reflexivity.
  simpl in Hlen. lia.
Qed.

End ForwardStages.

Lemma box_predictor_result_witness :
  exists raw bias bx,
    Sample.box_head Sample.features = Ok raw /\
    Sample.compute_box_bias Sample.images "both" = Ok bias /\
    Sample.boxes = {[ "pred_boxes" := bx ]} /\
    dom Sample.boxes = {[ "pred_boxes" ]} /\
    Np.broadcast_shapes (Np.shape raw) (Np.shape bias) = Some (Np.shape bx) /\
    Np.wf bx.
Proof.
  exact (box_predictor_result "both" Sample.compute_box_bias Sample.box_head
           Sample.sigmoid Sample.features Sample.images Sample.boxes
           sample_box_predictor).
Defined.

Lemma box_predictor_returns_witness :
  exists bx,
    box_predictor "both" Sample.compute_box_bias Sample.box_head Sample.sigmoid
      Sample.features Sample.images = Ok {[ "pred_boxes" := bx ]} /\
    Np.shape bx = [1; 4; 4] /\ Np.wf bx.
Proof.
  apply (box_predictor_returns "both" Sample.compute_box_bias Sample.box_head
           Sample.sigmoid Sample.features Sample.images
           (Np.zeros [1; 4; 4]) (Np.zeros [4; 4])).
  - reflexivity.
  - reflexivity.
  - reflexivity.
  - reflexivity.
  - reflexivity.
Defined.

Lemma call_train_only_through_embedder_witness :
  __call__ "both" Sample.embed_images Sample.embed_texts Sample.seq2img
    Sample.compute_box_bias Sample.box_head Sample.sigmoid
    Sample.project Sample.masked_similarity
    Sample.images Sample.queries true
  = __call__ "both" Sample.embed_images Sample.embed_texts Sample.seq2img
      Sample.compute_box_bias Sample.box_head Sample.sigmoid
      Sample.project Sample.masked_similarity
      Sample.images Sample.queries false.
Proof.
  apply (call_train_only_through_embedder "both"
           Sample.embed_images Sample.embed_texts Sample.seq2img
           Sample.compute_box_bias Sample.box_head Sample.sigmoid
           Sample.project Sample.masked_similarity
           Sample.images Sample.queries true false).
  - reflexivity.
  - reflexivity.
Defined.

Lemma call_returns_iff_witness :
  exists qe mask classes boxes,
    text_embedder Sample.embed_texts Sample.queries true = Ok qe /\
    query_mask Sample.queries = Ok mask /\
    class_predictor Sample.project Sample.masked_similarity
      (Np.mk_ndarray [1; 2 * 2; 3] (Np.data Sample.images))
      (Some qe) (Some mask) = Ok classes /\
    box_predictor "both" Sample.compute_box_bias Sample.box_head Sample.sigmoid
      (Np.mk_ndarray [1; 2 * 2; 3] (Np.data Sample.images)) Sample.images
      = Ok boxes /\
    Sample.outputs = boxes ∪ (classes ∪
      {[ "feature_map" := Sample.images; "query_embeddings" := qe ]}).
Proof.
  apply (proj1 (call_returns_iff "both"
                  Sample.embed_images Sample.embed_texts Sample.seq2img
                  Sample.compute_box_bias Sample.box_head Sample.sigmoid
                  Sample.project Sample.masked_similarity
                  Sample.images Sample.queries true Sample.images 1 2 2 3
                  Sample.outputs eq_refl eq_refl eq_refl)).
  exact sample_call.
Defined.

Lemma call_keeps_embeddings_witness :
  exists fm qe,
    image_embedder Sample.embed_images Sample.seq2img Sample.images true
      = Ok fm /\
    text_embedder Sample.embed_texts Sample.queries true = Ok qe /\
    Sample.outputs !! "feature_map" = Some fm /\
    Sample.outputs !! "query_embeddings" = Some qe.
Proof.
  exact (call_keeps_embeddings "both"
           Sample.embed_images Sample.embed_texts Sample.seq2img
           Sample.compute_box_bias Sample.box_head Sample.sigmoid
           Sample.project Sample.masked_similarity
           Sample.images Sample.queries true Sample.outputs sample_call).
Defined.

Lemma call_feature_map_rank_witness :
  __call__ "both" Sample.embed_images Sample.embed_texts Sample.seq2img_flat
    Sample.compute_box_bias Sample.box_head Sample.sigmoid
    Sample.project Sample.masked_similarity
    Sample.images Sample.queries true
  = Raise ValueError.
Proof.
  apply (call_feature_map_rank "both"
           Sample.embed_images Sample.embed_texts Sample.seq2img_flat
           Sample.compute_box_bias Sample.box_head Sample.sigmoid
           Sample.project Sample.masked_similarity
           Sample.images Sample.queries true Sample.flat_features).
  - reflexivity.
  - simpl. lia.
Defined.

(** On a checkpoint with only "params" whose class head still has the key
    "padding", the two loaders return different contents: [load_variables]
    keeps the stale key, the default mode of [load] drops it. *)
Theorem loaders_differ_on_stale_params
    (restore_checkpoint : string -> gmap string pytree)
    (load_backbone : pytree -> option string -> result pytree)
    (params : pytree) (init_config : gmap string string) (path : string)
    (m ch : gmap string pytree) :
  init_config !! "codebase" <> Some "clip" ->
  init_config !! "checkpoint_path" = Some path ->
  restore_checkpoint path !! "optimizer" = None ->
  restore_checkpoint path !! "params" = Some (PDict m) ->
  m !! "class_head" = Some (PDict ch) ->
  is_Some (ch !! "padding") ->
  exists r,
    load_variables restore_checkpoint path = Ok {[ "params" := PDict m ]} /\
    load restore_checkpoint load_backbone params init_config = Ok r /\
    r <> PDict m.
Proof.
  intros Hmode Hpath Ho Hp Hch [v Hv].
  eexists. split; [by apply load_variables_params|].
  rewrite (load_default_params _ _ _ _ path (PDict m)) by done.
  unfold strip_stale. rewrite Hch. split; [reflexivity|].
  intros [= Hm].
  assert (Hl : (<["class_head" :=
                   PDict (delete "padding_bias" (delete "padding" ch))]> m)
               !! "class_head" = Some (PDict ch)) by (by rewrite Hm).
  rewrite lookup_insert_eq in Hl. injection Hl as Hl.
  assert (Hn : delete "padding_bias" (delete "padding" ch) !! "padding"
               = None).
  { rewrite lookup_delete_ne by done. apply lookup_delete_eq. }
  rewrite Hl, Hv in Hn. discriminate.
Qed.

Lemma loaders_differ_on_stale_params_witness :
  exists r,
    load_variables (Sample.store Sample.ckpt_params) "/ckpt"
      = Ok {[ "params" :=
                PDict {[ "class_head" :=
                           PDict {[ "padding" := Sample.leaf0 ]} ]} ]} /\
    load (Sample.store Sample.ckpt_params) Sample.backbone_loader
      Sample.model_params Sample.scenic_config = Ok r /\
    r <> PDict {[ "class_head" := PDict {[ "padding" := Sample.leaf0 ]} ]}.
Proof.
  apply (loaders_differ_on_stale_params
           (Sample.store Sample.ckpt_params) Sample.backbone_loader
           Sample.model_params Sample.scenic_config "/ckpt"
           _ {[ "padding" := Sample.leaf0 ]}).
  - vm_compute. discriminate.
  - vm_compute. reflexivity.
  - vm_compute. reflexivity.
  - vm_compute. reflexivity.
  - vm_compute. reflexivity.
  - exists Sample.leaf0. vm_compute. reflexivity.
Defined.
